(** * Text encoders of tensorflow_datasets: padding, tokenizer, byte and token encoders

    A shallow embedding of
    [tensorflow_datasets/core/features/text/text_encoder.py].

    Python values are modelled as follows.
    - A unicode string is the list of its code points ([text]); an id
      sequence is a list of integers ([list Z], since [pad_decr] can
      produce [-1]).
    - An exception is a value of [error]; a call that can raise returns
      a [result].
    - [dict] is a [gmap], built the way [dict(iterable)] builds it (a
      later pair overwrites an earlier pair with the same key); [set]
      is a [gset].
    - What the module takes from the interpreter and its libraries
      (the Unicode tables behind [\w], [str.lower] and [str.strip],
      [hashlib.md5], the [re] engine run on a reserved-token pattern)
      is the interface [PyRuntime]. *)

From Stdlib Require Import ZArith Lia.
From Stdlib Require Import Strings.String Strings.Ascii.
From stdpp Require Import base tactics option list numbers countable gmap.

Local Open Scope Z_scope.

(** ** Exceptions and results *)

Inductive error : Type :=
  | IndexError                               (* list index out of range *)
  | ByteRangeError                           (* ValueError: byte must be in range(0, 256) *)
  | UnicodeDecodeError
  | UnicodeEncodeError
  | DuplicateTokens (dups : list (list Z))   (* ValueError: Duplicates found in tokens *)
  | OutOfVocabulary (token : list Z)         (* ValueError: Out of vocabulary token *)
  | RegexError                               (* re.error raised by re.compile *)
  | AttributeError                           (* a method called on None *)
  | OutOfFuel.                               (* a loop bound of the model was reached *)

Inductive result (A : Type) : Type :=
  | Ok (a : A)
  | Err (e : error).
Arguments Ok {A} a.
Arguments Err {A} e.

#[global] Instance result_ret : MRet result := fun _ a => Ok a.
#[global] Instance result_bind : MBind result := fun _ _ f m =>
  match m with
  | Ok a => f a
  | Err e => Err e
  end.
#[global] Instance result_fmap : FMap result := fun _ _ f m =>
  match m with
  | Ok a => Ok (f a)
  | Err e => Err e
  end.

Definition is_Ok {A} (r : result A) : bool :=
  match r with Ok _ => true | Err _ => false end.

(** ** Text and bytes *)

(** A unicode string: its code points. *)
Abbreviation text := (list Z).

(** A Rocq string literal read as text (one code point per character). *)
Definition txt (s : string) : text :=
  map (fun a => Z.of_N (N_of_ascii a)) (list_ascii_of_string s).

(** [NUM_BYTES = 2**8] *)
Definition NUM_BYTES : Z := 2 ^ 8.

(** Python indexing [l[idx]]: a negative index counts from the end. *)
Definition py_index {A} (l : list A) (idx : Z) : result A :=
  let n := Z.of_nat (length l) in
  let i := if idx <? 0 then idx + n else idx in
  if (0 <=? i) && (i <? n)
  then match l !! Z.to_nat i with
       | Some x => Ok x
       | None => Err IndexError
       end
  else Err IndexError.

(** Python slicing [l[:stop]]: a negative stop counts from the end, and
    the bound is clamped to the list. *)
Definition py_slice_to {A} (l : list A) (stop : Z) : list A :=
  let n := Z.of_nat (length l) in
  let s := if stop <? 0 then stop + n else stop in
  take (Z.to_nat (Z.max 0 (Z.min s n))) l.

(** ** The padding convention *)

(** [pad_incr]: [[i + 1 for i in ids]]. *)
Definition pad_incr (ids : list Z) : list Z :=
  map (fun i => i + 1) ids.

(** The loop of [pad_decr]: [while not ids[idx]: idx -= 1].  Each turn
    reads [ids[idx]], which raises once [idx] has run past the start. *)
Fixpoint pad_decr_scan (fuel : nat) (ids : list Z) (idx : Z) : result Z :=
  match fuel with
  | O => Err OutOfFuel
  | S fuel' =>
      x ← py_index ids idx;
      if x =? 0 then pad_decr_scan fuel' ids (idx - 1) else Ok idx
  end.

(** [pad_decr]: strip ID 0 and decrement ids by 1.  The scan reads at
    most [len(ids) + 1] elements. *)
Definition pad_decr (ids : list Z) : result (list Z) :=
  idx ← pad_decr_scan (S (length ids)) ids (-1);
  let ids' := if idx =? -1 then ids else py_slice_to ids (idx + 1) in
  Ok (map (fun i => i - 1) ids').

(** The ids that remain once the zeros at the end are dropped. *)
Fixpoint strip_trailing_zeros (ids : list Z) : list Z :=
  match ids with
  | [] => []
  | x :: r =>
      match strip_trailing_zeros r with
      | [] => if x =? 0 then [] else [x]
      | r' => x :: r'
      end
  end.

(** ** UTF-8: [tf.compat.as_bytes] and [tf.compat.as_text]

    [as_bytes] applied to a unicode string is [s.encode("utf-8")] and
    [as_text] applied to bytes is [b.decode("utf-8")], both strict:
    surrogates are refused by the encoder, and the decoder refuses
    overlong forms, surrogates, stray continuation bytes and code points
    above U+10FFFF.  Applied to a unicode string, [as_text] is the
    identity, so it does not appear in the model. *)

Definition is_surrogate (c : Z) : bool := (0xD800 <=? c) && (c <? 0xE000).

Definition utf8_encode_cp (c : Z) : result (list Z) :=
  if c <? 0 then Err UnicodeEncodeError
  else if c <? 0x80 then Ok [c]
  else if c <? 0x800 then Ok [0xC0 + c / 64; 0x80 + c mod 64]
  else if c <? 0x10000 then
    if is_surrogate c then Err UnicodeEncodeError
    else Ok [0xE0 + c / 4096; 0x80 + (c / 64) mod 64; 0x80 + c mod 64]
  else if c <? 0x110000 then
    Ok [0xF0 + c / 262144; 0x80 + (c / 4096) mod 64;
        0x80 + (c / 64) mod 64; 0x80 + c mod 64]
  else Err UnicodeEncodeError.

Fixpoint as_bytes (s : text) : result (list Z) :=
  match s with
  | [] => Ok []
  | c :: s' =>
      bs ← utf8_encode_cp c;
      rest ← as_bytes s';
      Ok (bs ++ rest)
  end.

Definition is_cont (b : Z) : bool := (0x80 <=? b) && (b <? 0xC0).

Fixpoint as_text (bs : list Z) : result text :=
  match bs with
  | [] => Ok []
  | b0 :: t0 =>
      if (0 <=? b0) && (b0 <? 0x80) then cons b0 <$> as_text t0
      else if (0xC2 <=? b0) && (b0 <? 0xE0) then
        match t0 with
        | b1 :: t1 =>
            if is_cont b1
            then cons ((b0 - 0xC0) * 64 + (b1 - 0x80)) <$> as_text t1
            else Err UnicodeDecodeError
        | _ => Err UnicodeDecodeError
        end
      else if (0xE0 <=? b0) && (b0 <? 0xF0) then
        match t0 with
        | b1 :: b2 :: t2 =>
            let c := (b0 - 0xE0) * 4096 + (b1 - 0x80) * 64 + (b2 - 0x80) in
            if is_cont b1 && is_cont b2 && (0x800 <=? c) && negb (is_surrogate c)
            then cons c <$> as_text t2
            else Err UnicodeDecodeError
        | _ => Err UnicodeDecodeError
        end
      else if (0xF0 <=? b0) && (b0 <? 0xF5) then
        match t0 with
        | b1 :: b2 :: b3 :: t3 =>
            let c := (b0 - 0xF0) * 262144 + (b1 - 0x80) * 4096
                     + (b2 - 0x80) * 64 + (b3 - 0x80) in
            if is_cont b1 && is_cont b2 && is_cont b3
               && (0x10000 <=? c) && (c <? 0x110000)
            then cons c <$> as_text t3
            else Err UnicodeDecodeError
        | _ => Err UnicodeDecodeError
        end
      else Err UnicodeDecodeError
  end.

(** [bytes(bytearray(ids))]: every element must be in [range(0, 256)]. *)
Definition py_bytearray (ids : list Z) : result (list Z) :=
  if forallb (fun i => (0 <=? i) && (i <? NUM_BYTES)) ids
  then Ok ids
  else Err ByteRangeError.

(** ** What the interpreter provides *)

Class PyRuntime : Type := {
  (** [\w] under [re.UNICODE]: alphanumeric characters and underscore *)
  is_word : Z -> bool;
  (** [str.lower] and [str.strip] *)
  str_lower : text -> text;
  str_strip : text -> text;
  (** [int(hashlib.md5(b).hexdigest(), 16)] *)
  md5_int : list Z -> Z;
  (** compiled patterns, [re.compile] (which can raise [re.error]) and
      [pattern.split] *)
  regex : Type;
  re_compile : text -> result regex;
  re_split : regex -> text -> list text;
  (** the pieces [split] returns are substrings of the subject, so those
      of the empty string are empty *)
  re_split_nil : forall r x, x ∈ re_split r [] -> x = [];
  (** the empty string has no character to change *)
  str_lower_nil : str_lower [] = [];
}.

(** ** Reserved tokens *)

(** [_find_duplicates]: the elements met again after a first time. *)
Fixpoint find_duplicates_from (seen : gset text) (els : list text) : list text :=
  match els with
  | [] => []
  | x :: els' =>
      if decide (x ∈ seen)
      then x :: find_duplicates_from seen els'
      else find_duplicates_from ({[ x ]} ∪ seen) els'
  end.

Definition _find_duplicates (els : list text) : list text :=
  find_duplicates_from ∅ els.

(** [rt.replace(u"\\", u"\\\\")]: every backslash is doubled. *)
Definition escape_backslash (rt : text) : text :=
  flat_map (fun c => if c =? 92 then [92; 92] else [c]) rt.

(** [sep.join(parts)] *)
Fixpoint py_join (sep : text) (parts : list text) : text :=
  match parts with
  | [] => []
  | [p] => p
  | p :: ps => p ++ sep ++ py_join sep ps
  end.

(** [u"(%s)" % u"|".join(escaped)] *)
Definition reserved_pattern (reserved_tokens : list text) : text :=
  txt "(" ++ py_join (txt "|") (map escape_backslash reserved_tokens) ++ txt ")".

Section WithRuntime.
Context `{RT : PyRuntime}.

(** [_prepare_reserved_tokens]: the tokens and, when there is one at
    least, the compiled pattern that splits them out of a string.
    [None] for the argument is the empty list. *)
Definition _prepare_reserved_tokens (reserved_tokens : list text)
  : result (list text * option regex) :=
  let dups := _find_duplicates reserved_tokens in
  match dups with
  | _ :: _ => Err (DuplicateTokens dups)
  | [] =>
      match reserved_tokens with
      | [] => Ok (reserved_tokens, None)
      | _ :: _ =>
          re ← re_compile (reserved_pattern reserved_tokens);
          Ok (reserved_tokens, Some re)
      end
  end.

(** ** The word patterns

    [ALPHANUM_REGEX = re.compile(r"\W+")] and
    [ALL_REGEX = re.compile(r"(\W+)")].  A match of [\W+] is a maximal run
    of characters that are not word characters; [split] returns the
    pieces between the matches and, for [ALL_REGEX], whose pattern is a
    group, the matches too. *)

Inductive word_regex : Type := ALPHANUM_REGEX | ALL_REGEX.

(** The scan of [split]: [cur] holds, reversed, the characters of the
    piece or of the match being read, [in_sep] tells which of the two. *)
Fixpoint nonword_split_go (keep in_sep : bool) (cur s : text) : list text :=
  match s with
  | [] =>
      if in_sep then (if keep then [rev cur] else []) ++ [[]] else [rev cur]
  | c :: s' =>
      if is_word c then
        if in_sep
        then (if keep then [rev cur] else []) ++ nonword_split_go keep false [c] s'
        else nonword_split_go keep false (c :: cur) s'
      else
        if in_sep
        then nonword_split_go keep true (c :: cur) s'
        else rev cur :: nonword_split_go keep true [c] s'
  end.

Definition word_regex_split (r : word_regex) (s : text) : list text :=
  match r with
  | ALPHANUM_REGEX => nonword_split_go false false [] s
  | ALL_REGEX => nonword_split_go true false [] s
  end.

(** [is_mixed_alphanum]: [len([s for s in ALL_REGEX.split(token) if s]) > 1] *)
Definition is_mixed_alphanum (token : text) : bool :=
  bool_decide
    (1 < length (filter (fun s => s ≠ []) (word_regex_split ALL_REGEX token)))%nat.

(** ** Tokenizer *)

Record Tokenizer : Type := {
  _alphanum_only : bool;
  _reserved_tokens : gset text;
  _reserved_tokens_re : option regex;
  _alphanum_re : word_regex;
}.

(** [Tokenizer.__init__(alphanum_only=True, reserved_tokens=None)] *)
Definition Tokenizer_init (alphanum_only : bool) (reserved_tokens : list text)
  : result Tokenizer :=
  p ← _prepare_reserved_tokens reserved_tokens;
  Ok {| _alphanum_only := alphanum_only;
        _reserved_tokens := list_to_set p.1;
        _reserved_tokens_re := p.2;
        _alphanum_re := if alphanum_only then ALPHANUM_REGEX else ALL_REGEX |}.

(** The invariant of a constructed tokenizer: one that has reserved
    tokens has their pattern. *)
Definition Tokenizer_wf (tk : Tokenizer) : Prop :=
  _reserved_tokens tk <> ∅ -> is_Some (_reserved_tokens_re tk).

(** [Tokenizer.tokenize] *)
Definition tokenize (self : Tokenizer) (s : text) : result (list text) :=
  substrs ←
    (if decide (_reserved_tokens self = ∅)
     then Ok [s]
     else match _reserved_tokens_re self with
          | Some re => Ok (re_split re s)
          | None => Err AttributeError
          end);
  let toks :=
    flat_map (fun substr =>
                if decide (substr ∈ _reserved_tokens self)
                then [substr]
                else word_regex_split (_alphanum_re self) substr)
             substrs in
  Ok (filter (fun t => t ≠ []) toks).

(** [Tokenizer.join] *)
Definition join (self : Tokenizer) (tokens : list text) : text :=
  if _alphanum_only self
  then py_join (txt " ") tokens
  else py_join [] tokens.

(** ** Dictionaries *)

(** [dict(pairs)]: the pairs are inserted in order, so a later pair
    replaces an earlier one that has the same key. *)
Definition py_dict (pairs : list (text * Z)) : gmap text Z :=
  fold_left (fun m kv => <[kv.1 := kv.2]> m) pairs ∅.

(** [dict(zip(tokens, range(len(tokens))))] *)
Definition index_table (tokens : list text) : gmap text Z :=
  py_dict (zip tokens (seqZ 0 (Z.of_nat (length tokens)))).

(** ** ByteTextEncoder *)

Record ByteTextEncoder : Type := {
  _additional_tokens : list text;
  _additional_tokens_re : option regex;
  _additional_token_to_id : gmap text Z;
}.

(** [ByteTextEncoder.__init__(additional_tokens=None)] *)
Definition ByteTextEncoder_init (additional_tokens : list text)
  : result ByteTextEncoder :=
  p ← _prepare_reserved_tokens additional_tokens;
  Ok {| _additional_tokens := p.1;
        _additional_tokens_re := p.2;
        _additional_token_to_id := index_table p.1 |}.

(** The invariant of a constructed [ByteTextEncoder]. *)
Definition ByteTextEncoder_wf (b : ByteTextEncoder) : Prop :=
  _additional_token_to_id b = index_table (_additional_tokens b)
  /\ (_additional_tokens b <> [] -> is_Some (_additional_tokens_re b)).

(** The loop of [ByteTextEncoder.encode] over the pieces of the split. *)
Fixpoint ByteTextEncoder_encode_substrs (self : ByteTextEncoder)
    (substrs : list text) : result (list Z) :=
  match substrs with
  | [] => Ok []
  | substr :: rest =>
      tok_ids ←
        match substr with
        | [] => Ok []
        | _ :: _ =>
            match _additional_token_to_id self !! substr with
            | None =>
                let offset := Z.of_nat (length (_additional_tokens self)) in
                bs ← as_bytes substr;
                Ok (map (fun i => i + offset) bs)
            | Some tok_id => Ok [tok_id]
            end
        end;
      ids ← ByteTextEncoder_encode_substrs self rest;
      Ok (tok_ids ++ ids)
  end.

(** [ByteTextEncoder.encode] *)
Definition ByteTextEncoder_encode (self : ByteTextEncoder) (s : text)
  : result (list Z) :=
  match _additional_tokens self with
  | [] => pad_incr <$> as_bytes s
  | _ :: _ =>
      match _additional_tokens_re self with
      | None => Err AttributeError
      | Some re =>
          pad_incr <$> ByteTextEncoder_encode_substrs self (re_split re s)
      end
  end.

(** [ByteTextEncoder.decode] *)
Definition ByteTextEncoder_decode (self : ByteTextEncoder) (ids : list Z)
  : result text :=
  ids ← pad_decr ids;
  bs ← py_bytearray ids;
  as_text bs.

(** [ByteTextEncoder.vocab_size] *)
Definition ByteTextEncoder_vocab_size (self : ByteTextEncoder) : Z :=
  Z.of_nat (length (_additional_tokens self)) + NUM_BYTES + 1.

(** ** TokenTextEncoder *)

Record TokenTextEncoder : Type := {
  _vocab_list : list text;
  _lowercase : bool;
  _token_to_id : gmap text Z;
  _oov_buckets : Z;
  _oov_token : text;
  _tokenizer : Tokenizer;
  _user_defined_tokenizer : option Tokenizer;
}.

(** [TokenTextEncoder.__init__(vocab_list, oov_buckets=1, oov_token=u"UNK",
    lowercase=False, tokenizer=None)] *)
Definition TokenTextEncoder_init (vocab_list : list text) (oov_buckets : Z)
    (oov_token : text) (lowercase : bool) (tokenizer : option Tokenizer)
  : result TokenTextEncoder :=
  let vocab := map str_strip vocab_list in
  let vocab := if lowercase then map str_lower vocab else vocab in
  let reserved_tokens := List.filter is_mixed_alphanum vocab in
  tk ← match tokenizer with
       | Some t => Ok t
       | None => Tokenizer_init true reserved_tokens
       end;
  Ok {| _vocab_list := vocab;
        _lowercase := lowercase;
        _token_to_id := index_table vocab;
        _oov_buckets := oov_buckets;
        _oov_token := oov_token;
        _tokenizer := tk;
        _user_defined_tokenizer := tokenizer |}.

(** [TokenTextEncoder._oov_bucket]; [None] is Python's [None]. *)
Definition _oov_bucket (self : TokenTextEncoder) (token : text)
  : result (option Z) :=
  if _oov_buckets self <=? 0 then Ok None
  else if _oov_buckets self =? 1
  then Ok (Some (Z.of_nat (length (_vocab_list self))))
  else
    bs ← as_bytes token;
    let hash_val := md5_int bs in
    Ok (Some (Z.of_nat (length (_vocab_list self))
              + hash_val mod _oov_buckets self)).

(** The loop of [TokenTextEncoder.encode] over the tokens. *)
Fixpoint TokenTextEncoder_encode_tokens (self : TokenTextEncoder)
    (tokens : list text) : result (list Z) :=
  match tokens with
  | [] => Ok []
  | token :: rest =>
      let int_id := default (-1) (_token_to_id self !! token) in
      int_id ←
        (if int_id <? 0
         then
           b ← _oov_bucket self token;
           match b with
           | None => Err (OutOfVocabulary token)
           | Some i => Ok i
           end
         else Ok int_id);
      ids ← TokenTextEncoder_encode_tokens self rest;
      Ok (int_id :: ids)
  end.

(** [TokenTextEncoder.encode] *)
Definition TokenTextEncoder_encode (self : TokenTextEncoder) (s : text)
  : result (list Z) :=
  let s := if _lowercase self then str_lower s else s in
  tokens ← tokenize (_tokenizer self) s;
  ids ← TokenTextEncoder_encode_tokens self tokens;
  Ok (pad_incr ids).

(** The loop of [TokenTextEncoder.decode] over the ids. *)
Fixpoint TokenTextEncoder_decode_ids (self : TokenTextEncoder)
    (ids : list Z) : result (list text) :=
  match ids with
  | [] => Ok []
  | int_id :: rest =>
      token ←
        (if int_id <? Z.of_nat (length (_vocab_list self))
         then py_index (_vocab_list self) int_id
         else Ok (_oov_token self));
      tokens ← TokenTextEncoder_decode_ids self rest;
      Ok (token :: tokens)
  end.

(** [TokenTextEncoder.decode] *)
Definition TokenTextEncoder_decode (self : TokenTextEncoder) (ids : list Z)
  : result text :=
  ids ← pad_decr ids;
  tokens ← TokenTextEncoder_decode_ids self ids;
  Ok (py_join (txt " ") tokens).

(** [TokenTextEncoder.vocab_size] *)
Definition TokenTextEncoder_vocab_size (self : TokenTextEncoder) : Z :=
  Z.of_nat (length (_vocab_list self)) + _oov_buckets self + 1.

(** ** The abstract class [TextEncoder] *)

Class TextEncoder (E : Type) : Type := {
  encode : E -> text -> result (list Z);
  decode : E -> list Z -> result text;
  vocab_size : E -> Z;
}.

#[global] Instance ByteTextEncoder_TextEncoder : TextEncoder ByteTextEncoder := {
  encode := ByteTextEncoder_encode;
  decode := ByteTextEncoder_decode;
  vocab_size := ByteTextEncoder_vocab_size;
}.

#[global] Instance TokenTextEncoder_TextEncoder : TextEncoder TokenTextEncoder := {
  encode := TokenTextEncoder_encode;
  decode := TokenTextEncoder_decode;
  vocab_size := TokenTextEncoder_vocab_size;
}.

End WithRuntime.

(** ** A reference runtime for ASCII text

    It agrees with CPython on strings of ASCII characters and on the
    patterns [_prepare_reserved_tokens] builds from tokens that hold no
    regex metacharacter other than [|] and the backslash: such a pattern
    is an alternation of literals, tried in order at each position.  An
    empty match does not split (the behaviour of [split] up to Python
    3.6).  [md5_int] below is not MD5; no statement in this file depends
    on its values. *)

Module AsciiRuntime.

Definition is_word (c : Z) : bool :=
  ((48 <=? c) && (c <=? 57)) || ((65 <=? c) && (c <=? 90))
  || ((97 <=? c) && (c <=? 122)) || (c =? 95).

Definition str_lower (s : text) : text :=
  map (fun c => if (65 <=? c) && (c <=? 90) then c + 32 else c) s.

Definition is_space (c : Z) : bool :=
  ((9 <=? c) && (c <=? 13)) || ((28 <=? c) && (c <=? 32)).

Fixpoint lstrip (s : text) : text :=
  match s with
  | c :: s' => if is_space c then lstrip s' else s
  | [] => []
  end.

Definition str_strip (s : text) : text := rev (lstrip (rev (lstrip s))).

Definition md5_int (bs : list Z) : Z := foldr Z.add 0 bs.

(** The alternatives of a pattern body: [|] separates them and a
    backslash makes the next character literal. *)
Fixpoint parse_alts (esc : bool) (cur p : text) : list text :=
  match p with
  | [] => [rev cur]
  | c :: p' =>
      if esc then parse_alts false (c :: cur) p'
      else if c =? 92 then parse_alts true cur p'
      else if c =? 124 then rev cur :: parse_alts false [] p'
      else parse_alts false (c :: cur) p'
  end.

(** A pattern [(body)]. *)
Definition re_compile (p : text) : result (list text) :=
  match p with
  | 40 :: rest =>
      match rev rest with
      | 41 :: body => Ok (parse_alts false [] (rev body))
      | _ => Err RegexError
      end
  | _ => Err RegexError
  end.

Definition first_alt (alts : list text) (s : text) : option text :=
  snd <$> list_find (fun a => a `prefix_of` s) alts.

(** [skip] counts the characters of the current match still to pass. *)
Fixpoint re_split_go (alts : list text) (skip : nat) (cur s : text) : list text :=
  match s with
  | [] => [rev cur]
  | c :: s' =>
      match skip with
      | S k => re_split_go alts k cur s'
      | O =>
          match first_alt alts s with
          | Some ((_ :: _) as tok) =>
              rev cur :: tok :: re_split_go alts (length tok - 1) [] s'
          | _ => re_split_go alts 0 (c :: cur) s'
          end
      end
  end.

Definition re_split (alts : list text) (s : text) : list text :=
  re_split_go alts 0 [] s.

Lemma re_split_nil (r : list text) (x : text) : x ∈ re_split r [] -> x = [].
Proof. cbn. intros H. apply list_elem_of_singleton in H. exact H. Qed.

End AsciiRuntime.

Definition ascii_runtime : PyRuntime := {|
  is_word := AsciiRuntime.is_word;
  str_lower := AsciiRuntime.str_lower;
  str_strip := AsciiRuntime.str_strip;
  md5_int := AsciiRuntime.md5_int;
  regex := list text;
  re_compile := AsciiRuntime.re_compile;
  re_split := AsciiRuntime.re_split;
  re_split_nil := AsciiRuntime.re_split_nil;
  str_lower_nil := eq_refl;
|}.

(** An encoder of each kind, as [ByteTextEncoder()] and
    [TokenTextEncoder(["hello", "world"])] build them. *)
Definition example_byte_encoder : ByteTextEncoder (RT := ascii_runtime) :=
  {| _additional_tokens := [];
     _additional_tokens_re := None;
     _additional_token_to_id := index_table [] |}.

Definition example_token_encoder : TokenTextEncoder (RT := ascii_runtime) :=
  {| _vocab_list := [txt "hello"; txt "world"];
     _lowercase := false;
     _token_to_id := index_table [txt "hello"; txt "world"];
     _oov_buckets := 1;
     _oov_token := txt "UNK";
     _tokenizer :=
       {| _alphanum_only := true;
          _reserved_tokens := ∅;
          _reserved_tokens_re := None;
          _alphanum_re := ALPHANUM_REGEX |};
     _user_defined_tokenizer := None |}.

(** ** Classes of strings *)

Section WordClasses.
Context `{RT : PyRuntime}.

(** Strings of word characters only, and of other characters only. *)
Definition all_word (t : text) : Prop := Forall (fun c => is_word c = true) t.
Definition all_nonword (t : text) : Prop := Forall (fun c => is_word c = false) t.

End WordClasses.

(** ** Decoded tokens *)

Section DecodedTokens.
Context `{RT : PyRuntime}.

(** The token [TokenTextEncoder.decode] gives for an id that, once
    decremented, is not negative: [vocab_list[j]], or [oov_token] from
    [len(vocab_list)] on. *)
Definition token_of (e : TokenTextEncoder) (j : Z) : text :=
  default (_oov_token e) (_vocab_list e !! Z.to_nat j).

End DecodedTokens.

(** ** Persistence

    [save_to_file] and [load_from_file] go through [tf.gfile] and
    [json].  A file system is a map from file names to the bytes of the
    files; opening a name for writing always succeeds and replaces the
    file.  The [json] module and the order in which a [set] is listed
    are taken from the interpreter ([PyHost]).  A metadata object is a
    dictionary from names to the values the module stores. *)

Inductive json_value : Type :=
  | JInt (n : Z)
  | JBool (b : bool)
  | JStr (s : text)
  | JStrList (l : list text).

#[global] Instance json_value_eq_dec : EqDecision json_value.
Proof. solve_decision. Defined.

Class PyHost : Type := {
  (** [json.dumps] and [json.loads] ([None] when it raises) *)
  json_dumps : gmap text json_value -> text;
  json_loads : text -> option (gmap text json_value);
  (** [list(s)] for a set [s] *)
  set_list : gset text -> list text;
  set_list_perm : forall s, set_list s ≡ₚ elements s;
}.

Inductive io_error : Type :=
  | NotFoundError                      (* the file does not exist *)
  | NotCreatedFrom (cls_name : text)   (* ValueError: File ... does not seem to
                                          have been created from ....save_to_file *)
  | JSONDecodeError                    (* json.loads *)
  | TypeError                          (* unexpected keyword argument *)
  | IllTyped                           (* a stored value of another type than the
                                          one saved: the model stops here *)
  | Raised (e : error).

Inductive io_result (A : Type) : Type :=
  | IoOk (a : A)
  | IoErr (e : io_error).
Arguments IoOk {A} a.
Arguments IoErr {A} e.

#[global] Instance io_result_ret : MRet io_result := fun _ a => IoOk a.
#[global] Instance io_result_bind : MBind io_result := fun _ _ f m =>
  match m with
  | IoOk a => f a
  | IoErr e => IoErr e
  end.

#[global] Instance io_result_fmap : FMap io_result := fun _ _ f m =>
  match m with
  | IoOk a => IoOk (f a)
  | IoErr e => IoErr e
  end.

Definition lift {A} (r : result A) : io_result A :=
  match r with
  | Ok a => IoOk a
  | Err e => IoErr (Raised e)
  end.

Definition newline : text := [10].

Definition _HEADER_PREFIX : text := txt "### ".
Definition _METADATA_PREFIX : text := txt "### Metadata: ".

(** The writes of an open file, in order: [f.write(as_bytes(chunk))].
    What was written before a chunk that cannot be encoded stays. *)
Fixpoint write_all (written : list Z) (chunks : list text) : list Z * result unit :=
  match chunks with
  | [] => (written, Ok tt)
  | chunk :: chunks' =>
      match as_bytes chunk with
      | Ok bs => write_all (written ++ bs) chunks'
      | Err e => (written, Err e)
      end
  end.

(** The lines of a file read in binary mode: each ends with its newline,
    but for a last line that has none. *)
Fixpoint file_lines_go (cur : list Z) (bs : list Z) : list (list Z) :=
  match bs with
  | [] => match cur with [] => [] | _ :: _ => [rev cur] end
  | b :: bs' =>
      if b =? 10
      then rev (b :: cur) :: file_lines_go [] bs'
      else file_lines_go (b :: cur) bs'
  end.

Definition file_lines (bs : list Z) : list (list Z) := file_lines_go [] bs.

(** [[as_text(line)[:-1] for line in f]] *)
Fixpoint decode_lines (lines : list (list Z)) : result (list text) :=
  match lines with
  | [] => Ok []
  | line :: rest =>
      s ← as_text line;
      ss ← decode_lines rest;
      Ok (py_slice_to s (-1) :: ss)
  end.

(** A string that can stand on a line of a file: it has no newline
    and UTF-8 can encode it. *)
Definition plain_line (s : text) : Prop :=
  (10 ∉ s) /\ is_Ok (as_bytes s) = true.

(** The text of a file that has the given lines. *)
Definition unlines (ls : list text) : text :=
  flat_map (fun l => l ++ newline) ls.

Section Persistence.
Context `{RT : PyRuntime} `{HOST : PyHost}.

(** [write_lines_to_file] *)
Definition write_lines_to_file (cls_name filename : text) (lines : list text)
    (metadata_dict : option (gmap text json_value))
    (fs : gmap text (list Z)) : gmap text (list Z) * io_result unit :=
  let metadata_dict := default ∅ metadata_dict in
  let header_line := _HEADER_PREFIX ++ cls_name in
  let metadata_line := _METADATA_PREFIX ++ json_dumps metadata_dict in
  let w := write_all []
             [header_line; newline; metadata_line; newline;
              py_join newline lines; newline] in
  (<[filename := w.1]> fs, lift w.2).

(** [read_lines_from_file] *)
Definition read_lines_from_file (cls_name filename : text)
    (fs : gmap text (list Z))
  : io_result (list text * gmap text json_value) :=
  match fs !! filename with
  | None => IoErr NotFoundError
  | Some content =>
      lines ← lift (decode_lines (file_lines content));
      let header_line := _HEADER_PREFIX ++ cls_name in
      l0 ← lift (py_index lines 0);
      if decide (l0 = header_line)
      then
        l1 ← lift (py_index lines 1);
        match json_loads (drop (length _METADATA_PREFIX) l1) with
        | Some metadata_dict => IoOk (drop 2 lines, metadata_dict)
        | None => IoErr JSONDecodeError
        end
      else IoErr (NotCreatedFrom cls_name)
  end.

(** Keyword arguments read from a metadata object: the default when the
    name is absent. *)
Definition kw_int (d : gmap text json_value) (k : text) (dflt : Z) : io_result Z :=
  match d !! k with
  | None => IoOk dflt
  | Some (JInt n) => IoOk n
  | Some _ => IoErr IllTyped
  end.

Definition kw_bool (d : gmap text json_value) (k : text) (dflt : bool)
  : io_result bool :=
  match d !! k with
  | None => IoOk dflt
  | Some (JBool b) => IoOk b
  | Some _ => IoErr IllTyped
  end.

Definition kw_str (d : gmap text json_value) (k : text) (dflt : text)
  : io_result text :=
  match d !! k with
  | None => IoOk dflt
  | Some (JStr s) => IoOk s
  | Some _ => IoErr IllTyped
  end.

Definition kw_strlist (d : gmap text json_value) (k : text) (dflt : list text)
  : io_result (list text) :=
  match d !! k with
  | None => IoOk dflt
  | Some (JStrList l) => IoOk l
  | Some _ => IoErr IllTyped
  end.

(** A call of a constructor with the stored keyword arguments raises
    [TypeError] on a name that is not a parameter. *)
Definition check_kwargs (d : gmap text json_value) (params : gset text)
  : io_result unit :=
  if decide (dom d ⊆ params) then IoOk tt else IoErr TypeError.

(** *** ByteTextEncoder *)

Definition ByteTextEncoder_filename (filename_prefix : text) : text :=
  filename_prefix ++ txt ".bytes".

(** [ByteTextEncoder.save_to_file] *)
Definition ByteTextEncoder_save_to_file (self : ByteTextEncoder)
    (filename_prefix : text) (fs : gmap text (list Z))
  : gmap text (list Z) * io_result unit :=
  write_lines_to_file (txt "ByteTextEncoder")
    (ByteTextEncoder_filename filename_prefix) (_additional_tokens self) None fs.

(** [ByteTextEncoder.load_from_file] *)
Definition ByteTextEncoder_load_from_file (filename_prefix : text)
    (fs : gmap text (list Z)) : io_result ByteTextEncoder :=
  p ← read_lines_from_file (txt "ByteTextEncoder")
         (ByteTextEncoder_filename filename_prefix) fs;
  lift (ByteTextEncoder_init p.1).

(** *** Tokenizer *)

Definition Tokenizer_filename (filename_prefix : text) : text :=
  filename_prefix ++ txt ".tokenizer".

(** The [kwargs] of [Tokenizer.save_to_file]. *)
Definition Tokenizer_kwargs (self : Tokenizer) : gmap text json_value :=
  <[txt "alphanum_only" := JBool (_alphanum_only self)]>
    (<[txt "reserved_tokens" := JStrList (set_list (_reserved_tokens self))]> ∅).

(** [Tokenizer.save_to_file] *)
Definition Tokenizer_save_to_file (self : Tokenizer) (filename_prefix : text)
    (fs : gmap text (list Z)) : gmap text (list Z) * io_result unit :=
  let filename := Tokenizer_filename filename_prefix in
  let kwargs := Tokenizer_kwargs self in
  write_lines_to_file (txt "Tokenizer") filename [] (Some kwargs) fs.

(** [Tokenizer.load_from_file] *)
Definition Tokenizer_load_from_file (filename_prefix : text)
    (fs : gmap text (list Z)) : io_result Tokenizer :=
  let filename := Tokenizer_filename filename_prefix in
  p ← read_lines_from_file (txt "Tokenizer") filename fs;
  let kwargs := p.2 in
  _ ← check_kwargs kwargs {[txt "alphanum_only"; txt "reserved_tokens"]};
  alphanum_only ← kw_bool kwargs (txt "alphanum_only") true;
  reserved_tokens ← kw_strlist kwargs (txt "reserved_tokens") [];
  lift (Tokenizer_init alphanum_only reserved_tokens).

(** *** TokenTextEncoder *)

Definition TokenTextEncoder_filename (filename_prefix : text) : text :=
  filename_prefix ++ txt ".tokens".

(** The [kwargs] of [TokenTextEncoder.save_to_file], before the
    tokenizer file is added. *)
Definition TokenTextEncoder_kwargs (self : TokenTextEncoder)
  : gmap text json_value :=
  <[txt "oov_token" := JStr (_oov_token self)]>
    (<[txt "lowercase" := JBool (_lowercase self)]>
       (<[txt "oov_buckets" := JInt (_oov_buckets self)]> ∅)).

(** [TokenTextEncoder.save_to_file] *)
Definition TokenTextEncoder_save_to_file (self : TokenTextEncoder)
    (filename_prefix : text) (fs : gmap text (list Z))
  : gmap text (list Z) * io_result unit :=
  let filename := TokenTextEncoder_filename filename_prefix in
  let kwargs := TokenTextEncoder_kwargs self in
  match _user_defined_tokenizer self with
  | Some _ =>
      let w := Tokenizer_save_to_file (_tokenizer self) filename fs in
      match w.2 with
      | IoErr e => (w.1, IoErr e)
      | IoOk _ =>
          write_lines_to_file (txt "TokenTextEncoder") filename (_vocab_list self)
            (Some (<[txt "tokenizer_file_prefix" := JStr filename]> kwargs)) w.1
      end
  | None =>
      write_lines_to_file (txt "TokenTextEncoder") filename (_vocab_list self)
        (Some kwargs) fs
  end.

(** [TokenTextEncoder.load_from_file] *)
Definition TokenTextEncoder_load_from_file (filename_prefix : text)
    (fs : gmap text (list Z)) : io_result TokenTextEncoder :=
  let filename := TokenTextEncoder_filename filename_prefix in
  p ← read_lines_from_file (txt "TokenTextEncoder") filename fs;
  let vocab_lines := p.1 in
  let tokenizer_file := p.2 !! txt "tokenizer_file_prefix" in
  let kwargs := delete (txt "tokenizer_file_prefix") p.2 in
  tokenizer ←
    match tokenizer_file with
    | None | Some (JStr []) => IoOk None
    | Some (JStr (c :: f)) => Some <$> Tokenizer_load_from_file (c :: f) fs
    | Some _ => IoErr IllTyped
    end;
  _ ← check_kwargs kwargs
        {[txt "oov_buckets"; txt "oov_token"; txt "lowercase"; txt "tokenizer"]};
  _ ← match kwargs !! txt "tokenizer", tokenizer with
      | Some _, None => IoErr IllTyped
      | _, _ => IoOk tt
      end;
  oov_buckets ← kw_int kwargs (txt "oov_buckets") 1;
  oov_token ← kw_str kwargs (txt "oov_token") (txt "UNK");
  lowercase ← kw_bool kwargs (txt "lowercase") false;
  lift (TokenTextEncoder_init vocab_lines oov_buckets oov_token lowercase tokenizer).

End Persistence.

(** ** A reference host

    [json] for the metadata objects above, with strings of printable
    ASCII characters, and sets listed in the order of [elements]. *)

Module ReferenceJson.

(** The decimal digits of a number that is not negative. *)
Fixpoint dump_digits (fuel : nat) (n : Z) (acc : text) : text :=
  match fuel with
  | O => acc
  | S fuel' =>
      let acc' := (48 + n mod 10) :: acc in
      if n <? 10 then acc' else dump_digits fuel' (n / 10) acc'
  end.

Definition dump_int (n : Z) : text :=
  let digits m := dump_digits (S (Z.to_nat (Z.log2 m))) m [] in
  if n <? 0 then 45 :: digits (- n) else digits n.

Definition dump_str (s : text) : text :=
  [34] ++ flat_map (fun c => if c =? 34 then [92; 34]
                             else if c =? 92 then [92; 92]
                             else if c =? 10 then [92; 110]
                             else [c]) s ++ [34].

Definition dump_value (v : json_value) : text :=
  match v with
  | JInt n => dump_int n
  | JBool true => txt "true"
  | JBool false => txt "false"
  | JStr s => dump_str s
  | JStrList l => txt "[" ++ py_join (txt ", ") (map dump_str l) ++ txt "]"
  end.

Definition json_dumps (d : gmap text json_value) : text :=
  txt "{"
  ++ py_join (txt ", ")
       (map (fun kv => dump_str kv.1 ++ txt ": " ++ dump_value kv.2)
          (map_to_list d))
  ++ txt "}".

Fixpoint skip_ws (s : text) : text :=
  match s with
  | c :: s' => if c =? 32 then skip_ws s' else s
  | [] => []
  end.

(** The characters of a string up to its closing quote, and what
    follows it. *)
Fixpoint read_str_body (esc : bool) (acc s : text) : option (text * text) :=
  match s with
  | [] => None
  | c :: s' =>
      if esc then read_str_body false ((if c =? 110 then 10 else c) :: acc) s'
      else if c =? 92 then read_str_body true acc s'
      else if c =? 34 then Some (rev acc, s')
      else read_str_body false (c :: acc) s'
  end.

Definition read_str (s : text) : option (text * text) :=
  match s with
  | c :: s' => if c =? 34 then read_str_body false [] s' else None
  | [] => None
  end.

Fixpoint read_int_body (acc s : text) : text * text :=
  match s with
  | c :: s' =>
      if (c =? 45) || ((48 <=? c) && (c <=? 57))
      then read_int_body (c :: acc) s'
      else (rev acc, s)
  | [] => (rev acc, [])
  end.

Definition read_digits (s : text) : option Z :=
  match s with
  | [] => None
  | _ :: _ =>
      if forallb (fun c => (48 <=? c) && (c <=? 57)) s
      then Some (fold_left (fun n c => 10 * n + (c - 48)) s 0)
      else None
  end.

Definition read_int (s : text) : option (Z * text) :=
  let p := read_int_body [] s in
  n ← match p.1 with
      | 45 :: ds => Z.opp <$> read_digits ds
      | ds => read_digits ds
      end;
  Some (n, p.2).

Definition read_lit (lit s : text) : option text :=
  if decide (take (length lit) s = lit) then Some (drop (length lit) s) else None.

Fixpoint read_strlist (fuel : nat) (acc : list text) (s : text)
  : option (list text * text) :=
  match fuel with
  | O => None
  | S fuel' =>
      match skip_ws s with
      | c :: s' =>
          if c =? 93 then Some (rev acc, s')
          else if c =? 44 then read_strlist fuel' acc s'
          else p ← read_str (c :: s'); read_strlist fuel' (p.1 :: acc) p.2
      | [] => None
      end
  end.

Definition read_value (s : text) : option (json_value * text) :=
  match s with
  | c :: s' =>
      if c =? 34 then p ← read_str s; Some (JStr p.1, p.2)
      else if c =? 116 then r ← read_lit (txt "true") s; Some (JBool true, r)
      else if c =? 102 then r ← read_lit (txt "false") s; Some (JBool false, r)
      else if c =? 91 then p ← read_strlist (length s) [] s'; Some (JStrList p.1, p.2)
      else p ← read_int s; Some (JInt p.1, p.2)
  | [] => None
  end.

Fixpoint read_members (fuel : nat) (acc : gmap text json_value) (s : text)
  : option (gmap text json_value) :=
  match fuel with
  | O => None
  | S fuel' =>
      match skip_ws s with
      | c :: s' =>
          if c =? 125 then match skip_ws s' with [] => Some acc | _ => None end
          else if c =? 44 then read_members fuel' acc s'
          else
            k ← read_str (c :: s');
            match skip_ws k.2 with
            | c' :: s'' =>
                if c' =? 58
                then v ← read_value (skip_ws s'');
                     read_members fuel' (<[k.1 := v.1]> acc) v.2
                else None
            | [] => None
            end
      | [] => None
      end
  end.

Definition json_loads (s : text) : option (gmap text json_value) :=
  match skip_ws s with
  | c :: s' => if c =? 123 then read_members (length s) ∅ s' else None
  | [] => None
  end.

End ReferenceJson.

Definition reference_host : PyHost := {|
  json_dumps := ReferenceJson.json_dumps;
  json_loads := ReferenceJson.json_loads;
  set_list := elements;
  set_list_perm := fun s => reflexivity (elements s);
|}.

(** * Properties *)

(** ** The padding convention *)

Lemma py_index_from_end {A} (l r : list A) (x : A) :
  py_index (l ++ x :: r) (-1 - Z.of_nat (length r)) = Ok x.
Proof.
  unfold py_index. rewrite length_app, length_cons.
  replace (-1 - Z.of_nat (length r) <? 0) with true by (symmetry; apply Z.ltb_lt; lia).
  replace (-1 - Z.of_nat (length r) + Z.of_nat (length l + S (length r)))
    with (Z.of_nat (length l)) by lia.
  replace (0 <=? Z.of_nat (length l)) with true by (symmetry; apply Z.leb_le; lia).
  replace (Z.of_nat (length l) <? Z.of_nat (length l + S (length r)))
    with true by (symmetry; apply Z.ltb_lt; lia).
  rewrite Nat2Z.id. simpl.
  rewrite lookup_app_r by lia. rewrite Nat.sub_diag. reflexivity.
Qed.

Lemma py_index_past_start {A} (l : list A) :
  py_index l (-1 - Z.of_nat (length l)) = Err IndexError.
Proof.
  unfold py_index.
  replace (-1 - Z.of_nat (length l) <? 0) with true by (symmetry; apply Z.ltb_lt; lia).
  replace (0 <=? -1 - Z.of_nat (length l) + Z.of_nat (length l))
    with false by (symmetry; apply Z.leb_gt; lia).
  reflexivity.
Qed.

(** The scan passes a run of zeros, one turn for each. *)
Lemma pad_decr_scan_zeros (zs : list Z) :
  Forall (fun i => i = 0) zs ->
  forall (l r : list Z) (fuel : nat),
    pad_decr_scan (length zs + fuel) (l ++ zs ++ r) (-1 - Z.of_nat (length r))
    = pad_decr_scan fuel (l ++ zs ++ r)
        (-1 - Z.of_nat (length r) - Z.of_nat (length zs)).
Proof.
  induction zs as [|z zs IH] using rev_ind; intros Hz l r fuel.
  - simpl. f_equal. lia.
  - apply Forall_app in Hz as [Hzs Hz].
    apply Forall_inv in Hz. cbv beta in Hz. subst z.
    rewrite length_app. simpl length.
    replace (length zs + 1 + fuel)%nat with (S (length zs + fuel)) by lia.
    cbn [pad_decr_scan].
    replace (l ++ (zs ++ [0]) ++ r) with ((l ++ zs) ++ 0 :: r)
      by (rewrite <- !app_assoc; reflexivity).
    rewrite py_index_from_end. cbn [mbind result_bind]. simpl (0 =? 0).
    cbv iota.
    replace ((l ++ zs) ++ 0 :: r) with (l ++ zs ++ 0 :: r)
      by (rewrite <- !app_assoc; reflexivity).
    replace (-1 - Z.of_nat (length r) - 1)
      with (-1 - Z.of_nat (length (0 :: r))) by (simpl length; lia).
    rewrite (IH Hzs l (0 :: r) fuel). f_equal. simpl length. lia.
Qed.

(** A sequence is all zeros, or ends with a nonzero id and a run of zeros. *)
Lemma trailing_zeros_split (ids : list Z) :
  Forall (fun i => i = 0) ids
  \/ exists l x zs, ids = l ++ x :: zs /\ x <> 0 /\ Forall (fun i => i = 0) zs.
Proof.
  induction ids as [|y ids IH].
  - left. constructor.
  - destruct IH as [Hz | (l & x & zs & -> & Hx & Hz)].
    + destruct (decide (y = 0)) as [->|Hy].
      * left. constructor; [reflexivity | exact Hz].
      * right. exists [], y, ids. auto.
    + right. exists (y :: l), x, zs. auto.
Qed.

Lemma strip_trailing_zeros_zeros (zs : list Z) :
  Forall (fun i => i = 0) zs -> strip_trailing_zeros zs = [].
Proof.
  induction 1 as [|z zs -> _ IH]; [reflexivity|].
  simpl. rewrite IH. reflexivity.
Qed.

Lemma strip_trailing_zeros_last (l zs : list Z) (x : Z) :
  x <> 0 -> Forall (fun i => i = 0) zs ->
  strip_trailing_zeros (l ++ x :: zs) = l ++ [x].
Proof.
  intros Hx Hz. induction l as [|y l IH].
  - simpl. rewrite (strip_trailing_zeros_zeros zs Hz).
    destruct (x =? 0) eqn:E; [apply Z.eqb_eq in E; contradiction | reflexivity].
  - simpl. rewrite IH. destruct (l ++ [x]) eqn:E; [|reflexivity].
    destruct l; discriminate.
Qed.

(** On a sequence of zeros only (the empty one too) the scan runs past
    the start. *)
Lemma pad_decr_zeros (zs : list Z) :
  Forall (fun i => i = 0) zs -> pad_decr zs = Err IndexError.
Proof.
  intros Hz. unfold pad_decr.
  assert (pad_decr_scan (S (length zs)) zs (-1)
          = pad_decr_scan 1 zs (-1 - Z.of_nat (length zs))) as ->.
  { pose proof (pad_decr_scan_zeros zs Hz [] [] 1%nat) as H.
    rewrite app_nil_r in H. change ([] ++ zs) with zs in H.
    change (-1 - Z.of_nat (length [])) with (-1) in H.
    rewrite <- H. f_equal. lia. }
  cbn [pad_decr_scan]. rewrite py_index_past_start. reflexivity.
Qed.

(** On any other sequence, the zeros after the last nonzero id go and
    every id that stays is decremented. *)
Lemma pad_decr_last_nonzero (l zs : list Z) (x : Z) :
  x <> 0 -> Forall (fun i => i = 0) zs ->
  pad_decr (l ++ x :: zs) = Ok (map (fun i => i - 1) (l ++ [x])).
Proof.
  intros Hx Hz. unfold pad_decr.
  assert (pad_decr_scan (S (length (l ++ x :: zs))) (l ++ x :: zs) (-1)
          = pad_decr_scan (S (S (length l))) (l ++ x :: zs)
              (-1 - Z.of_nat (length zs))) as ->.
  { pose proof (pad_decr_scan_zeros zs Hz (l ++ [x]) [] (S (S (length l)))) as H.
    rewrite app_nil_r in H. rewrite <- app_assoc in H.
    change ([x] ++ zs) with (x :: zs) in H.
    change (-1 - Z.of_nat (length [])) with (-1) in H.
    rewrite <- H. f_equal. rewrite length_app. simpl. lia. }
  cbn [pad_decr_scan]. rewrite py_index_from_end.
  cbn [mbind result_bind].
  destruct (x =? 0) eqn:E; [apply Z.eqb_eq in E; contradiction|].
  cbn [mbind result_bind]. f_equal. f_equal.
  destruct zs as [|z zs].
  - simpl. reflexivity.
  - replace (-1 - Z.of_nat (length (z :: zs)) =? -1) with false
      by (symmetry; apply Z.eqb_neq; simpl length; lia).
    unfold py_slice_to.
    replace (-1 - Z.of_nat (length (z :: zs)) + 1 <? 0) with true
      by (symmetry; apply Z.ltb_lt; simpl length; lia).
    replace (Z.to_nat _) with (length (l ++ [x]))
      by (rewrite !length_app; cbn [length]; lia).
    replace (l ++ x :: z :: zs) with ((l ++ [x]) ++ z :: zs)
      by (rewrite <- app_assoc; reflexivity).
    apply take_app_length.
Qed.

(** [pad_decr] on every input. *)
Lemma pad_decr_spec (ids : list Z) :
  pad_decr ids =
  if forallb (fun i => i =? 0) ids
  then Err IndexError
  else Ok (map (fun i => i - 1) (strip_trailing_zeros ids)).
Proof.
  destruct (trailing_zeros_split ids) as [Hz | (l & x & zs & -> & Hx & Hz)].
  - rewrite (pad_decr_zeros ids Hz).
    replace (forallb (fun i => i =? 0) ids) with true; [reflexivity|].
    symmetry. apply forallb_forall. intros i Hi.
    rewrite Forall_forall in Hz. apply Z.eqb_eq. apply Hz.
    apply list_elem_of_In. exact Hi.
  - rewrite (pad_decr_last_nonzero l zs x Hx Hz).
    rewrite (strip_trailing_zeros_last l zs x Hx Hz).
    replace (forallb (fun i => i =? 0) (l ++ x :: zs)) with false; [reflexivity|].
    symmetry. apply not_true_is_false. intros H.
    rewrite forallb_forall in H. specialize (H x).
    rewrite Z.eqb_eq in H. apply Hx, H. apply in_or_app. right. left. reflexivity.
Qed.
(** ** UTF-8 *)

Ltac decide_tests :=
  repeat match goal with
  | |- context [?a <? ?b] => destruct (Z.ltb_spec a b); try lia
  | |- context [?a <=? ?b] => destruct (Z.leb_spec a b); try lia
  end.

Lemma as_text_1 (b0 : Z) (t : list Z) :
  0 <= b0 < 0x80 -> as_text (b0 :: t) = cons b0 <$> as_text t.
Proof. intros. cbn [as_text]. decide_tests. reflexivity. Qed.

Lemma as_text_2 (b0 b1 : Z) (t : list Z) :
  0xC2 <= b0 < 0xE0 -> 0x80 <= b1 < 0xC0 ->
  as_text (b0 :: b1 :: t) = cons ((b0 - 0xC0) * 64 + (b1 - 0x80)) <$> as_text t.
Proof.
  intros. cbn [as_text]. unfold is_cont. decide_tests. reflexivity.
Qed.

Lemma as_text_3 (b0 b1 b2 : Z) (t : list Z) :
  let c := (b0 - 0xE0) * 4096 + (b1 - 0x80) * 64 + (b2 - 0x80) in
  0xE0 <= b0 < 0xF0 -> 0x80 <= b1 < 0xC0 -> 0x80 <= b2 < 0xC0 ->
  0x800 <= c -> ~ (0xD800 <= c < 0xE000) ->
  as_text (b0 :: b1 :: b2 :: t) = cons c <$> as_text t.
Proof.
  intros c ? ? ? ? ?. subst c. cbn [as_text]. unfold is_cont, is_surrogate.
  decide_tests; reflexivity.
Qed.

Lemma as_text_4 (b0 b1 b2 b3 : Z) (t : list Z) :
  let c := (b0 - 0xF0) * 262144 + (b1 - 0x80) * 4096
           + (b2 - 0x80) * 64 + (b3 - 0x80) in
  0xF0 <= b0 < 0xF5 -> 0x80 <= b1 < 0xC0 -> 0x80 <= b2 < 0xC0 ->
  0x80 <= b3 < 0xC0 -> 0x10000 <= c < 0x110000 ->
  as_text (b0 :: b1 :: b2 :: b3 :: t) = cons c <$> as_text t.
Proof.
  intros c ? ? ? ? ?. subst c. cbn [as_text]. unfold is_cont.
  decide_tests; reflexivity.
Qed.

Lemma utf8_decode_encode_cp (c : Z) (bs rest : list Z) :
  utf8_encode_cp c = Ok bs ->
  as_text (bs ++ rest) = cons c <$> as_text rest.
Proof.
  unfold utf8_encode_cp, is_surrogate.
  destruct (Z.ltb_spec c 0); [discriminate|].
  destruct (Z.ltb_spec c 0x80).
  { intros [= <-]. cbn [app]. apply as_text_1. lia. }
  destruct (Z.ltb_spec c 0x800).
  { intros [= <-]. cbn [app].
    rewrite as_text_2 by (Z.div_mod_to_equations; lia).
    f_equal. f_equal. Z.div_mod_to_equations; lia. }
  destruct (Z.ltb_spec c 0x10000).
  { destruct (Z.leb_spec 0xD800 c); destruct (Z.ltb_spec c 0xE000);
      cbn [andb]; try discriminate;
      intros [= <-]; cbn [app];
      (rewrite as_text_3 by (Z.div_mod_to_equations; lia));
      f_equal; f_equal; Z.div_mod_to_equations; lia. }
  destruct (Z.ltb_spec c 0x110000); [|discriminate].
  intros [= <-]. cbn [app].
  rewrite as_text_4 by (Z.div_mod_to_equations; lia).
  f_equal. f_equal. Z.div_mod_to_equations; lia.
Qed.

Lemma as_text_as_bytes (s : text) (bs : list Z) :
  as_bytes s = Ok bs -> as_text bs = Ok s.
Proof.
  revert bs. induction s as [|c s IH]; intros bs.
  - intros [= <-]. reflexivity.
  - cbn [as_bytes]. destruct (utf8_encode_cp c) as [b|] eqn:Ec; [|discriminate].
    cbn [mbind result_bind].
    destruct (as_bytes s) as [r|]; [|discriminate].
    cbn [mbind result_bind]. intros [= <-].
    rewrite (utf8_decode_encode_cp c b r Ec), (IH r eq_refl). reflexivity.
Qed.

Lemma utf8_encode_cp_range (c : Z) (bs : list Z) :
  utf8_encode_cp c = Ok bs -> Forall (fun b => 0 <= b < NUM_BYTES) bs.
Proof.
  unfold utf8_encode_cp, NUM_BYTES. change (2 ^ 8) with 256.
  destruct (Z.ltb_spec c 0); [discriminate|].
  destruct (Z.ltb_spec c 0x80).
  { intros [= <-]. repeat constructor; lia. }
  destruct (Z.ltb_spec c 0x800).
  { intros [= <-]. repeat constructor; Z.div_mod_to_equations; lia. }
  destruct (Z.ltb_spec c 0x10000).
  { destruct (is_surrogate c); [discriminate|].
    intros [= <-]. repeat constructor; Z.div_mod_to_equations; lia. }
  destruct (Z.ltb_spec c 0x110000); [|discriminate].
  intros [= <-]. repeat constructor; Z.div_mod_to_equations; lia.
Qed.

Lemma as_bytes_range (s : text) (bs : list Z) :
  as_bytes s = Ok bs -> Forall (fun b => 0 <= b < NUM_BYTES) bs.
Proof.
  revert bs. induction s as [|c s IH]; intros bs.
  - intros [= <-]. constructor.
  - cbn [as_bytes]. destruct (utf8_encode_cp c) as [b|] eqn:Ec; [|discriminate].
    cbn [mbind result_bind].
    destruct (as_bytes s) as [r|]; [|discriminate].
    cbn [mbind result_bind]. intros [= <-].
    apply Forall_app. split; [eapply utf8_encode_cp_range; eauto | auto].
Qed.

Lemma as_bytes_nil_inv (s : text) : as_bytes s = Ok [] -> s = [].
Proof.
  destruct s as [|c s]; [reflexivity|].
  cbn [as_bytes]. destruct (utf8_encode_cp c) as [b|] eqn:Ec; [|discriminate].
  cbn [mbind result_bind].
  destruct (as_bytes s) as [r|]; [|discriminate].
  cbn [mbind result_bind]. intros [= H]. apply app_eq_nil in H as [-> _].
  exfalso. revert Ec. unfold utf8_encode_cp.
  repeat match goal with |- context [if ?b then _ else _] => destruct b end;
    discriminate.
Qed.

(** ** ByteTextEncoder *)

Lemma py_bytearray_ok (bs : list Z) :
  Forall (fun b => 0 <= b < NUM_BYTES) bs -> py_bytearray bs = Ok bs.
Proof.
  intros H. unfold py_bytearray.
  replace (forallb _ bs) with true; [reflexivity|].
  symmetry. apply forallb_forall. intros b Hb.
  rewrite Forall_forall in H. specialize (H b (proj2 (list_elem_of_In _ _) Hb)).
  apply andb_true_intro. split; [apply Z.leb_le | apply Z.ltb_lt]; lia.
Qed.

(** Incremented bytes come back unchanged, unless there is none. *)
Lemma pad_decr_pad_incr (bs : list Z) :
  Forall (fun b => 0 <= b) bs -> bs <> [] -> pad_decr (pad_incr bs) = Ok bs.
Proof.
  intros Hb Hne.
  destruct (exists_last Hne) as (l & x & ->).
  apply Forall_app in Hb as [_ Hx]. apply Forall_inv in Hx. cbv beta in Hx.
  unfold pad_incr. rewrite map_app. cbn [map].
  rewrite (pad_decr_last_nonzero _ [] (x + 1)) by (first [lia | constructor]).
  f_equal. rewrite map_app, map_map. cbn [map]. f_equal; [|f_equal; lia].
  rewrite <- (map_id l) at 2. apply map_ext. intros; lia.
Qed.

Section ByteTextEncoderFacts.
Context `{RT : PyRuntime}.

(** Without additional tokens, [decode] gives back every string but the
    empty one. *)
Lemma ByteTextEncoder_roundtrip_nonempty (e : ByteTextEncoder) (s : text)
    (ids : list Z) :
  ByteTextEncoder_init [] = Ok e ->
  s <> [] ->
  ByteTextEncoder_encode e s = Ok ids ->
  ByteTextEncoder_decode e ids = Ok s.
Proof.
  intros [= <-] Hs. unfold ByteTextEncoder_encode, ByteTextEncoder_decode.
  cbn [_additional_tokens fst].
  destruct (as_bytes s) as [bs|] eqn:Eb; [|discriminate].
  cbn [fmap result_fmap]. intros [= <-].
  pose proof (as_bytes_range s bs Eb) as Hr.
  rewrite pad_decr_pad_incr.
  - cbn [mbind result_bind]. rewrite (py_bytearray_ok bs Hr).
    cbn [mbind result_bind]. apply as_text_as_bytes, Eb.
  - eapply Forall_impl; [exact Hr|]. cbv beta. intros; lia.
  - intros ->. apply Hs, as_bytes_nil_inv, Eb.
Qed.

(** [decode] does not read the encoder. *)
Lemma ByteTextEncoder_decode_any (e e' : ByteTextEncoder) (ids : list Z) :
  ByteTextEncoder_decode e ids = ByteTextEncoder_decode e' ids.
Proof. reflexivity. Qed.

End ByteTextEncoderFacts.

(** C1.  Claimed: a [ByteTextEncoder] with additional tokens decodes an
    id below their number to the token at that index, and an id at or
    above it to the byte [id - num_additional_tokens].  The code does
    neither: with the one additional token [<EOS>], [encode] turns
    [a<EOS>b] into [[99; 1; 100]] (byte [a] moved up by the one token and
    the pad, then the token's id), and [decode] reads these back as the
    bytes [98; 0; 99], the text [b\x00c]. *)
Theorem C1_decode_ignores_additional_tokens :
  (e ← ByteTextEncoder_init (RT := ascii_runtime) [txt "<EOS>"];
   Ok (_additional_tokens e,
       ByteTextEncoder_encode e (txt "a<EOS>b"),
       ByteTextEncoder_decode e [99; 1; 100]))
  = Ok ([txt "<EOS>"], Ok [99; 1; 100], Ok [98; 0; 99]).
Proof. vm_compute. reflexivity. Qed.

(** C3.  Claimed for every id sequence: [pad_decr] drops the zeros at the
    end and decrements what is left.  At [[0; 0]] that would leave the
    empty sequence; the code raises [IndexError] there. *)
Theorem C3_pad_decr_all_pad_raises :
  pad_decr [0; 0] = Err IndexError
  /\ map (fun i => i - 1) (strip_trailing_zeros [0; 0]) = [].
Proof. split; reflexivity. Qed.

(** C6.  Claimed for every text: without additional tokens,
    [decode(encode(s))] is [s].  At the empty string [encode] returns the
    empty sequence and [decode] raises [IndexError] on it. *)
Theorem C6_roundtrip_empty_string_raises `{RT : PyRuntime} :
  (e ← ByteTextEncoder_init [];
   ids ← ByteTextEncoder_encode e [];
   Ok (ids, ByteTextEncoder_decode e ids))
  = Ok ([], Err IndexError).
Proof. reflexivity. Qed.

(** C10.  On a sequence of one or more ids that are all zero, [pad_decr]
    raises [IndexError], and so does [decode] of either encoder. *)
Theorem C10_all_zero_ids_raise `{RT : PyRuntime} (ids : list Z)
    (b : ByteTextEncoder) (t : TokenTextEncoder) :
  ids <> [] ->
  Forall (fun i => i = 0) ids ->
  pad_decr ids = Err IndexError
  /\ decode b ids = Err IndexError
  /\ decode t ids = Err IndexError.
Proof.
  intros _ Hz. pose proof (pad_decr_zeros ids Hz) as H.
  cbn [decode ByteTextEncoder_TextEncoder TokenTextEncoder_TextEncoder].
  unfold ByteTextEncoder_decode, TokenTextEncoder_decode.
  rewrite H. auto.
Qed.

(** ** Reserved tokens *)

Lemma find_duplicates_from_nil (els : list text) (seen : gset text) :
  find_duplicates_from seen els = []
  <-> NoDup els /\ (forall x, x ∈ els -> x ∉ seen).
Proof.
  revert seen. induction els as [|x els IH]; intros seen; cbn [find_duplicates_from].
  - split; [|reflexivity]. intros _. split; [constructor|].
    intros x Hx. apply elem_of_nil in Hx. contradiction.
  - destruct (decide (x ∈ seen)) as [Hin|Hnin].
    + split; [discriminate|]. intros [_ H]. exfalso.
      apply (H x); [left | exact Hin].
    + rewrite IH. split.
      * intros [Hnd H]. split.
        -- constructor; [|exact Hnd]. intros Hx. apply (H x Hx).
           apply elem_of_union. left. apply elem_of_singleton. reflexivity.
        -- intros y Hy. apply elem_of_cons in Hy as [->|Hy]; [exact Hnin|].
           specialize (H y Hy). intros Hs. apply H, elem_of_union. right. exact Hs.
      * intros [Hnd H]. apply NoDup_cons in Hnd as [Hx Hnd]. split; [exact Hnd|].
        intros y Hy. specialize (H y (list_elem_of_further _ _ _ Hy)).
        intros [Hs|Hs]%elem_of_union; [|contradiction].
        apply elem_of_singleton in Hs. subst y. contradiction.
Qed.

Lemma find_duplicates_nil (els : list text) :
  _find_duplicates els = [] <-> NoDup els.
Proof.
  unfold _find_duplicates. rewrite find_duplicates_from_nil.
  split; [tauto|]. intros H. split; [exact H|]. intros x _.
  apply not_elem_of_empty.
Qed.

Section ReservedTokenFacts.
Context `{RT : PyRuntime}.

Lemma prepare_reserved_tokens_Ok (toks : list text)
    (p : list text * option regex) :
  _prepare_reserved_tokens toks = Ok p ->
  p.1 = toks /\ NoDup toks /\ (toks <> [] -> is_Some p.2).
Proof.
  unfold _prepare_reserved_tokens.
  destruct (_find_duplicates toks) eqn:Ed; [|discriminate].
  apply find_duplicates_nil in Ed.
  destruct toks as [|t toks].
  - intros [= <-]. cbn. split; [reflexivity|]. split; [exact Ed|]. congruence.
  - destruct (re_compile _) as [re|]; [|discriminate].
    cbn [mbind result_bind]. intros [= <-]. cbn.
    split; [reflexivity|]. split; [exact Ed|]. intros _. eexists; reflexivity.
Qed.

Lemma prepare_reserved_tokens_dup (toks : list text) :
  ~ NoDup toks ->
  _find_duplicates toks <> []
  /\ _prepare_reserved_tokens toks = Err (DuplicateTokens (_find_duplicates toks)).
Proof.
  intros Hd. unfold _prepare_reserved_tokens.
  destruct (_find_duplicates toks) eqn:Ed.
  - exfalso. apply Hd, find_duplicates_nil, Ed.
  - split; [discriminate | reflexivity].
Qed.

End ReservedTokenFacts.

(** C8.  A reserved or additional token list that holds an entry twice
    makes the construction of a [Tokenizer] and of a [ByteTextEncoder]
    fail with the error that lists the duplicates; no tokenizer or encoder
    results. *)
Theorem C8_duplicate_tokens_rejected `{RT : PyRuntime} (toks : list text)
    (alphanum_only : bool) :
  ~ NoDup toks ->
  exists dups, dups <> []
    /\ Tokenizer_init alphanum_only toks = Err (DuplicateTokens dups)
    /\ ByteTextEncoder_init toks = Err (DuplicateTokens dups).
Proof.
  intros Hd. destruct (prepare_reserved_tokens_dup toks Hd) as [Hne Hp].
  exists (_find_duplicates toks). split; [exact Hne|].
  unfold Tokenizer_init, ByteTextEncoder_init. rewrite Hp. split; reflexivity.
Qed.

(** ** Tokenizer *)

Lemma py_join_nil (l : list text) : py_join [] l = concat l.
Proof.
  induction l as [|p [|q ps] IH]; [reflexivity | cbn; rewrite app_nil_r; reflexivity |].
  change (py_join [] (p :: q :: ps)) with (p ++ [] ++ py_join [] (q :: ps)).
  rewrite IH. reflexivity.
Qed.

Lemma concat_filter_nonempty (l : list text) :
  concat (filter (fun t => t <> []) l) = concat l.
Proof.
  induction l as [|t l IH]; [reflexivity|].
  destruct (decide (t = [])) as [->|Ht].
  - rewrite filter_cons_False by (intros H; apply H; reflexivity).
    rewrite IH. reflexivity.
  - rewrite filter_cons_True by exact Ht. cbn [concat]. rewrite IH. reflexivity.
Qed.


Section TokenizerFacts.
Context `{RT : PyRuntime}.

(** With the group kept, the pieces of the split spell the string. *)
Lemma nonword_split_go_concat (s cur : text) (in_sep : bool) :
  concat (nonword_split_go true in_sep cur s) = rev cur ++ s.
Proof.
  revert cur in_sep. induction s as [|c s IH]; intros cur in_sep.
  - destruct in_sep; cbn; rewrite ?app_nil_r; reflexivity.
  - cbn [nonword_split_go]. destruct (is_word c), in_sep; cbn [app concat];
      rewrite IH; cbn [rev app]; rewrite <- ?app_assoc; reflexivity.
Qed.

Lemma Tokenizer_init_wf (alphanum_only : bool) (toks : list text)
    (tk : Tokenizer) :
  Tokenizer_init alphanum_only toks = Ok tk -> Tokenizer_wf tk.
Proof.
  unfold Tokenizer_init.
  destruct (_prepare_reserved_tokens toks) as [p|] eqn:Ep; [|discriminate].
  cbn [mbind result_bind]. intros [= <-]. unfold Tokenizer_wf. cbn.
  destruct (prepare_reserved_tokens_Ok toks p Ep) as (E1 & _ & E3).
  intros Hne. apply E3. intros ->. apply Hne. rewrite E1. reflexivity.
Qed.



End TokenizerFacts.

(** C7.  A [Tokenizer] built with [alphanum_only=False] and no reserved
    tokens splits every string into tokens that [join] puts back
    together into the same string. *)
Theorem C7_join_tokenize_inverse `{RT : PyRuntime} (s : text) :
  (tk ← Tokenizer_init false [];
   toks ← tokenize tk s;
   Ok (join tk toks)) = Ok s.
Proof.
  cbn. unfold tokenize, join. cbn.
  destruct (decide (∅ = ∅)) as [_|H]; [|contradiction].
  cbn [mbind result_bind flat_map].
  destruct (decide (s ∈ ∅)) as [H|_]; [apply not_elem_of_empty in H; contradiction|].
  cbn [_alphanum_re word_regex_split]. rewrite app_nil_r.
  rewrite py_join_nil, concat_filter_nonempty, nonword_split_go_concat.
  reflexivity.
Qed.

(** ** The index table *)

(** Appending a token sets its entry to the index it gets. *)
Lemma index_table_snoc (l : list text) (x : text) :
  index_table (l ++ [x]) = <[x := Z.of_nat (length l)]> (index_table l).
Proof.
  unfold index_table, py_dict. rewrite length_app. cbn [length].
  replace (Z.of_nat (length l + 1)) with (Z.of_nat (length l) + 1) by lia.
  rewrite seqZ_app by lia. cbn [seqZ]. 
  change (seqZ (0 + Z.of_nat (length l)) 1) with [0 + Z.of_nat (length l)].
  rewrite zip_with_app by (rewrite length_seqZ; lia).
  rewrite fold_left_app. reflexivity.
Qed.

Lemma index_table_lookup_range (l : list text) (t : text) (i : Z) :
  index_table l !! t = Some i -> 0 <= i < Z.of_nat (length l).
Proof.
  revert i. induction l as [|x l IH] using rev_ind; intros i.
  - unfold index_table, py_dict. cbn. rewrite lookup_empty. discriminate.
  - rewrite index_table_snoc, length_app. cbn [length].
    destruct (decide (x = t)) as [->|Hne].
    + rewrite lookup_insert_eq. intros [= <-]. lia.
    + rewrite lookup_insert_ne by exact Hne. intros H. apply IH in H. lia.
Qed.

Lemma index_table_lookup_None (l : list text) (t : text) :
  index_table l !! t = None <-> t ∉ l.
Proof.
  induction l as [|x l IH] using rev_ind.
  - unfold index_table, py_dict. cbn. rewrite lookup_empty.
    split; [intros _; apply not_elem_of_nil | reflexivity].
  - rewrite index_table_snoc. rewrite elem_of_app, list_elem_of_singleton.
    destruct (decide (x = t)) as [->|Hne].
    + rewrite lookup_insert_eq. split; [discriminate|]. intros H. exfalso. auto.
    + rewrite lookup_insert_ne by exact Hne. rewrite IH.
      split; [intros H [H'|H']; [auto | congruence] | intros H H'; auto].
Qed.

(** A token of the list is mapped to the last index where it stands. *)
Lemma index_table_lookup_last (l : list text) (t : text) (i : nat) :
  l !! i = Some t ->
  (forall j, (i < j)%nat -> l !! j <> Some t) ->
  index_table l !! t = Some (Z.of_nat i).
Proof.
  revert i. induction l as [|x l IH] using rev_ind; intros i Hi Hlast.
  - rewrite lookup_nil in Hi. discriminate.
  - rewrite index_table_snoc.
    destruct (decide (x = t)) as [->|Hne].
    + rewrite lookup_insert_eq. f_equal. f_equal.
      destruct (decide (i = length l)) as [->|Hil]; [reflexivity|].
      exfalso. apply lookup_lt_Some in Hi. rewrite length_app in Hi.
      cbn [length] in Hi. apply (Hlast (length l)); [lia|].
      rewrite lookup_app_r by lia. rewrite Nat.sub_diag. reflexivity.
    + rewrite lookup_insert_ne by exact Hne.
      assert (i < length l)%nat as Hlt.
      { pose proof (lookup_lt_Some _ _ _ Hi) as H. rewrite length_app in H.
        cbn [length] in H. destruct (decide (i = length l)) as [->|]; [|lia].
        rewrite lookup_app_r in Hi by lia. rewrite Nat.sub_diag in Hi.
        cbn in Hi. congruence. }
      apply IH.
      * rewrite lookup_app_l in Hi by exact Hlt. exact Hi.
      * intros j Hj Hl. apply (Hlast j Hj).
        rewrite lookup_app_l by (apply lookup_lt_Some in Hl; exact Hl). exact Hl.
Qed.

(** ** Encoders *)

Section EncoderFacts.
Context `{RT : PyRuntime}.

Lemma ByteTextEncoder_init_wf (toks : list text) (b : ByteTextEncoder) :
  ByteTextEncoder_init toks = Ok b -> ByteTextEncoder_wf b.
Proof.
  unfold ByteTextEncoder_init.
  destruct (_prepare_reserved_tokens toks) as [p|] eqn:Ep; [|discriminate].
  cbn [mbind result_bind]. intros [= <-]. split; cbn; [reflexivity|].
  destruct (prepare_reserved_tokens_Ok toks p Ep) as (E1 & _ & E3).
  rewrite E1. exact E3.
Qed.



Lemma ByteTextEncoder_encode_substrs_range (b : ByteTextEncoder)
    (substrs : list text) (ids : list Z) :
  ByteTextEncoder_wf b ->
  ByteTextEncoder_encode_substrs b substrs = Ok ids ->
  Forall (fun i => 0 <= i < Z.of_nat (length (_additional_tokens b)) + NUM_BYTES)
    ids.
Proof.
  intros [Htab _]. revert ids.
  induction substrs as [|substr rest IH]; intros ids.
  - intros [= <-]. constructor.
  - cbn [ByteTextEncoder_encode_substrs].
    match goal with |- context [mbind _ ?m] =>
      destruct m as [tok_ids|] eqn:Et end; [|discriminate].
    cbn [mbind result_bind].
    destruct (ByteTextEncoder_encode_substrs b rest) as [ids'|]; [|discriminate].
    cbn [mbind result_bind]. intros [= <-].
    apply Forall_app. split; [|apply IH; reflexivity].
    destruct substr as [|c substr]; [injection Et as <-; constructor|].
    destruct (_additional_token_to_id b !! (c :: substr)) as [tok_id|] eqn:El.
    + injection Et as <-. rewrite Htab in El.
      apply index_table_lookup_range in El.
      constructor; [|constructor]. unfold NUM_BYTES. lia.
    + destruct (as_bytes (c :: substr)) as [bs|] eqn:Eb; [|discriminate].
      cbn [mbind result_bind] in Et. injection Et as <-.
      apply as_bytes_range in Eb. apply Forall_map.
      eapply Forall_impl; [exact Eb|]. cbv beta. intros; lia.
Qed.

(** Every id [encode] returns is in [[1, vocab_size)]. *)
Lemma ByteTextEncoder_encode_range (toks : list text) (b : ByteTextEncoder)
    (s : text) (ids : list Z) :
  ByteTextEncoder_init toks = Ok b ->
  ByteTextEncoder_encode b s = Ok ids ->
  Forall (fun i => 1 <= i < ByteTextEncoder_vocab_size b) ids.
Proof.
  intros Hb. pose proof (ByteTextEncoder_init_wf toks b Hb) as Hwf.
  unfold ByteTextEncoder_encode, ByteTextEncoder_vocab_size.
  destruct (_additional_tokens b) as [|a l] eqn:Et.
  - destruct (as_bytes s) as [bs|] eqn:Eb; [|discriminate].
    cbn [fmap result_fmap]. intros [= <-].
    apply as_bytes_range in Eb. apply Forall_map.
    eapply Forall_impl; [exact Eb|]. cbv beta. cbn [length]. intros; lia.
  - destruct (_additional_tokens_re b) as [re|]; [|discriminate].
    destruct (ByteTextEncoder_encode_substrs b (re_split re s)) as [ids'|] eqn:Ee;
      [|discriminate].
    cbn [fmap result_fmap]. intros [= <-].
    apply (ByteTextEncoder_encode_substrs_range b _ _ Hwf) in Ee.
    rewrite Et in Ee. apply Forall_map.
    eapply Forall_impl; [exact Ee|]. cbv beta. intros; lia.
Qed.

(** What [__init__] establishes for a [TokenTextEncoder]. *)
Lemma TokenTextEncoder_init_table (vocab : list text) (oov : Z) (tok : text)
    (lc : bool) (tko : option Tokenizer) (e : TokenTextEncoder) :
  TokenTextEncoder_init vocab oov tok lc tko = Ok e ->
  _token_to_id e = index_table (_vocab_list e) /\ _oov_buckets e = oov
  /\ (tko = None -> Tokenizer_wf (_tokenizer e))
  /\ (forall tk, tko = Some tk -> _tokenizer e = tk).
Proof.
  unfold TokenTextEncoder_init.
  match goal with |- context [mbind _ ?m] => destruct m as [tk|] eqn:Etk end;
    [|discriminate].
  cbn [mbind result_bind]. intros [= <-]. cbn.
  split; [reflexivity|]. split; [reflexivity|]. split.
  - intros ->. eapply Tokenizer_init_wf, Etk.
  - intros tk' ->. congruence.
Qed.

(** The ids of the loop are 0 or more, and below the number of tokens
    and buckets when the number of buckets is not negative. *)
Lemma TokenTextEncoder_encode_tokens_range (e : TokenTextEncoder)
    (tokens : list text) (ids : list Z) :
  _token_to_id e = index_table (_vocab_list e) ->
  TokenTextEncoder_encode_tokens e tokens = Ok ids ->
  Forall (fun i => 0 <= i
                   /\ (0 <= _oov_buckets e ->
                       i < Z.of_nat (length (_vocab_list e)) + _oov_buckets e))
    ids.
Proof.
  intros Htab. revert ids. induction tokens as [|token rest IH]; intros ids.
  - intros [= <-]. constructor.
  - cbn [TokenTextEncoder_encode_tokens].
    match goal with |- context [mbind _ ?m] =>
      destruct m as [int_id|] eqn:Ei end; [|discriminate].
    cbn [mbind result_bind].
    destruct (TokenTextEncoder_encode_tokens e rest) as [ids'|]; [|discriminate].
    cbn [mbind result_bind]. intros [= <-].
    constructor; [|apply IH; reflexivity].
    rewrite Htab in Ei.
    destruct (index_table (_vocab_list e) !! token) as [i|] eqn:El; cbn [from_option id] in Ei.
    + apply index_table_lookup_range in El.
      destruct (Z.ltb_spec i 0); [lia|]. injection Ei as <-. lia.
    + change (-1 <? 0) with true in Ei. cbv iota in Ei.
      unfold _oov_bucket in Ei.
      destruct (Z.leb_spec (_oov_buckets e) 0); [discriminate|].
      destruct (Z.eqb_spec (_oov_buckets e) 1) as [E1|E1].
      * cbn [mbind result_bind] in Ei. injection Ei as <-. lia.
      * destruct (as_bytes token) as [bs|]; [|discriminate].
        cbn [mbind result_bind] in Ei. injection Ei as <-.
        pose proof (Z.mod_pos_bound (md5_int bs) (_oov_buckets e)). lia.
Qed.

(** Without buckets, a token that has no entry stops the loop. *)
Lemma TokenTextEncoder_encode_tokens_oov (e : TokenTextEncoder)
    (tokens : list text) (t : text) :
  _token_to_id e = index_table (_vocab_list e) ->
  _oov_buckets e <= 0 ->
  t ∈ tokens -> t ∉ _vocab_list e ->
  exists t', TokenTextEncoder_encode_tokens e tokens = Err (OutOfVocabulary t')
             /\ t' ∈ tokens /\ t' ∉ _vocab_list e.
Proof.
  intros Htab Hb Hin Hout. induction tokens as [|token rest IH].
  - apply elem_of_nil in Hin. contradiction.
  - cbn [TokenTextEncoder_encode_tokens]. rewrite Htab.
    assert (_oov_bucket e token = Ok None) as Hoov.
    { unfold _oov_bucket. destruct (Z.leb_spec (_oov_buckets e) 0); [reflexivity|lia]. }
    destruct (index_table (_vocab_list e) !! token) as [i|] eqn:El; cbn [from_option id].
    + pose proof (index_table_lookup_range _ _ _ El) as Hr.
      destruct (Z.ltb_spec i 0); [lia|]. cbn [mbind result_bind].
      assert (t ∈ rest) as Hrest.
      { apply elem_of_cons in Hin as [->|Hin]; [|exact Hin].
        apply index_table_lookup_None in Hout. congruence. }
      destruct (IH Hrest) as (t' & -> & Hin' & Hout').
      exists t'. split; [reflexivity|]. split; [right; exact Hin' | exact Hout'].
    + change (-1 <? 0) with true. cbv iota. rewrite Hoov.
      cbn [mbind result_bind]. exists token.
      split; [reflexivity|]. split; [left|].
      apply index_table_lookup_None, El.
Qed.


End EncoderFacts.

(** C2.  Claimed: [decode] of the empty id sequence returns an empty
    result.  For both encoders [decode] starts with [pad_decr], whose
    first step reads [ids[-1]]: on the empty sequence it raises
    [IndexError].  (That [encode] of the empty string is the empty
    sequence holds: [ByteTextEncoder_encode_empty],
    [TokenTextEncoder_encode_empty].) *)
Theorem C2_decode_empty_raises `{RT : PyRuntime} (b : ByteTextEncoder)
    (t : TokenTextEncoder) :
  decode b [] = Err IndexError /\ decode t [] = Err IndexError.
Proof. split; reflexivity. Qed.

(** C4, as claimed, fails: in the vocabulary [a, a] the token [a] stands
    first at index 0, yet the table maps it to 1 and [encode] returns
    [[2]], not [[1]]. *)
Lemma C4_first_index_counterexample :
  [txt "a"; txt "a"] !! 0%nat = Some (txt "a")
  /\ (e ← TokenTextEncoder_init (RT := ascii_runtime)
            [txt "a"; txt "a"] 1 (txt "UNK") false None;
      Ok (_vocab_list e, _token_to_id e !! txt "a",
          TokenTextEncoder_encode e (txt "a")))
     = Ok ([txt "a"; txt "a"], Some 1, Ok [2]).
Proof. split; vm_compute; reflexivity. Qed.

(** C4, amended.  The token-to-id table maps a token of the vocabulary
    to the last index at which it occurs, so [encode] of a text that
    is this one token yields that index plus the pad increment. *)
Theorem C4_duplicate_token_last_index `{RT : PyRuntime} (vocab : list text)
    (oov : Z) (tok : text) (lc : bool) (tko : option Tokenizer)
    (e : TokenTextEncoder) (t : text) (i : nat) :
  TokenTextEncoder_init vocab oov tok lc tko = Ok e ->
  _vocab_list e !! i = Some t ->
  (forall j, (i < j)%nat -> _vocab_list e !! j <> Some t) ->
  _token_to_id e !! t = Some (Z.of_nat i)
  /\ (forall s,
        tokenize (_tokenizer e) (if _lowercase e then str_lower s else s) = Ok [t] ->
        encode e s = Ok [Z.of_nat i + 1]).
Proof.
  intros He Hi Hlast.
  destruct (TokenTextEncoder_init_table _ _ _ _ _ _ He) as (Htab & _).
  assert (_token_to_id e !! t = Some (Z.of_nat i)) as Hl
    by (rewrite Htab; apply index_table_lookup_last; assumption).
  split; [exact Hl|]. intros s Hs.
  cbn [encode TokenTextEncoder_TextEncoder]. unfold TokenTextEncoder_encode.
  rewrite Hs. cbn [mbind result_bind TokenTextEncoder_encode_tokens].
  rewrite Hl. cbn [from_option id].
  destruct (Z.ltb_spec (Z.of_nat i) 0); [lia|]. reflexivity.
Qed.

(** C5, as claimed, fails: with [oov_buckets = -1] and the vocabulary
    [a], [encode] of [a] returns the id 1 while [vocab_size] is 1. *)
Lemma C5_negative_oov_buckets_counterexample :
  (e ← TokenTextEncoder_init (RT := ascii_runtime)
         [txt "a"] (-1) (txt "UNK") false None;
   Ok (TokenTextEncoder_encode e (txt "a"), TokenTextEncoder_vocab_size e))
  = Ok (Ok [1], 1).
Proof. vm_compute. reflexivity. Qed.

(** C5, amended.  Every id that [encode] returns is 1 or more; it is
    below [vocab_size] for a [ByteTextEncoder], and for a
    [TokenTextEncoder] whose [oov_buckets] is not negative. *)
Theorem C5_encode_ids_in_range `{RT : PyRuntime} :
  (forall (toks : list text) (b : ByteTextEncoder) (s : text) (ids : list Z),
      ByteTextEncoder_init toks = Ok b ->
      encode b s = Ok ids ->
      Forall (fun i => 1 <= i < vocab_size b) ids)
  /\ (forall (vocab : list text) (oov : Z) (tok : text) (lc : bool)
        (tko : option Tokenizer) (e : TokenTextEncoder) (s : text)
        (ids : list Z),
        TokenTextEncoder_init vocab oov tok lc tko = Ok e ->
        encode e s = Ok ids ->
        Forall (fun i => 1 <= i /\ (0 <= oov -> i < vocab_size e)) ids).
Proof.
  split.
  - intros toks b s ids Hb He.
    exact (ByteTextEncoder_encode_range toks b s ids Hb He).
  - intros vocab oov tok lc tko e s ids He.
    destruct (TokenTextEncoder_init_table _ _ _ _ _ _ He) as (Htab & Hoov & _).
    cbn [encode vocab_size TokenTextEncoder_TextEncoder].
    unfold TokenTextEncoder_encode, TokenTextEncoder_vocab_size.
    destruct (tokenize _ _) as [tokens|]; [|discriminate].
    cbn [mbind result_bind].
    destruct (TokenTextEncoder_encode_tokens e tokens) as [ids'|] eqn:Ee;
      [|discriminate].
    cbn [mbind result_bind]. intros [= <-].
    apply (TokenTextEncoder_encode_tokens_range e _ _ Htab) in Ee.
    rewrite Hoov in Ee. apply Forall_map.
    eapply Forall_impl; [exact Ee|]. cbv beta. intros i [H0 H1].
    split; [lia|]. intros H. specialize (H1 H). lia.
Qed.

(** C9.  When [oov_buckets <= 0] and the text has a token that is not
    in the vocabulary, [encode] raises the out-of-vocabulary error for
    such a token: no id sequence is returned. *)
Theorem C9_oov_token_raises `{RT : PyRuntime} (vocab : list text) (oov : Z)
    (tok : text) (lc : bool) (tko : option Tokenizer) (e : TokenTextEncoder)
    (s : text) (tokens : list text) (t : text) :
  TokenTextEncoder_init vocab oov tok lc tko = Ok e ->
  oov <= 0 ->
  tokenize (_tokenizer e) (if _lowercase e then str_lower s else s) = Ok tokens ->
  t ∈ tokens ->
  t ∉ _vocab_list e ->
  exists t', encode e s = Err (OutOfVocabulary t')
             /\ t' ∈ tokens /\ t' ∉ _vocab_list e.
Proof.
  intros He Hoov Htk Hin Hout.
  destruct (TokenTextEncoder_init_table _ _ _ _ _ _ He) as (Htab & Hb & _).
  rewrite <- Hb in Hoov.
  destruct (TokenTextEncoder_encode_tokens_oov e tokens t Htab Hoov Hin Hout)
    as (t' & Ht' & Hin' & Hout').
  exists t'. split; [|split; assumption].
  cbn [encode TokenTextEncoder_TextEncoder]. unfold TokenTextEncoder_encode.
  rewrite Htk. cbn [mbind result_bind]. rewrite Ht'. reflexivity.
Qed.

(** * Further properties *)

(** ** Padding *)

(** X1.  [pad_decr] on every id sequence: it raises [IndexError] when no
    id is nonzero (the empty sequence too), and otherwise returns the ids
    up to the last nonzero one, each decremented; the loop bound of the
    model is never reached. *)
Theorem X1_pad_decr_outcome (ids : list Z) :
  pad_decr ids =
  if forallb (fun i => i =? 0) ids
  then Err IndexError
  else Ok (map (fun i => i - 1) (strip_trailing_zeros ids)).
Proof. apply pad_decr_spec. Qed.

(** X2.  [pad_decr] undoes [pad_incr] on a sequence that is not empty and
    does not end with [-1]. *)
Theorem X2_pad_decr_pad_incr (ids : list Z) :
  ids <> [] ->
  last ids <> Some (-1) ->
  pad_decr (pad_incr ids) = Ok ids.
Proof.
  intros Hne Hlast. destruct (exists_last Hne) as (l & x & ->).
  rewrite last_snoc in Hlast.
  unfold pad_incr. rewrite map_app. cbn [map].
  rewrite (pad_decr_last_nonzero _ [] (x + 1));
    [|intros H; apply Hlast; f_equal; lia | constructor].
  f_equal. rewrite map_app, map_map. cbn [map]. f_equal; [|f_equal; lia].
  rewrite <- (map_id l) at 2. apply map_ext. intros; lia.
Qed.

(** X3.  Pad ids appended to a sequence that holds a nonzero id change
    nothing: [pad_decr] returns the same ids and both encoders decode
    the same text. *)
Theorem X3_trailing_pad_ignored `{RT : PyRuntime} (ids zs : list Z)
    (b : ByteTextEncoder) (t : TokenTextEncoder) :
  ~ Forall (fun i => i = 0) ids ->
  Forall (fun i => i = 0) zs ->
  pad_decr (ids ++ zs) = pad_decr ids
  /\ decode b (ids ++ zs) = decode b ids
  /\ decode t (ids ++ zs) = decode t ids.
Proof.
  intros Hnz Hz.
  assert (pad_decr (ids ++ zs) = pad_decr ids) as H.
  { destruct (trailing_zeros_split ids) as [Ha | (l & x & z1 & -> & Hx & Hz1)];
      [contradiction|].
    rewrite <- app_assoc. cbn [app].
    rewrite (pad_decr_last_nonzero l (z1 ++ zs) x Hx)
      by (apply Forall_app; split; assumption).
    rewrite (pad_decr_last_nonzero l z1 x Hx Hz1). reflexivity. }
  cbn [decode ByteTextEncoder_TextEncoder TokenTextEncoder_TextEncoder].
  unfold ByteTextEncoder_decode, TokenTextEncoder_decode. rewrite H. auto.
Qed.

(** ** Duplicates *)

Lemma twice_cons (x y : text) (els : list text) :
  (exists l1 l2 l3, y :: els = l1 ++ x :: l2 ++ x :: l3)
  <-> (x = y /\ x ∈ els) \/ (exists l1 l2 l3, els = l1 ++ x :: l2 ++ x :: l3).
Proof.
  split.
  - intros (l1 & l2 & l3 & E). destruct l1 as [|z l1]; cbn in E.
    + injection E as -> ->. left. split; [reflexivity|].
      apply elem_of_app. right. left.
    + injection E as -> ->. right. eauto.
  - intros [[-> Hin] | (l1 & l2 & l3 & ->)].
    + apply list_elem_of_split in Hin as (l2 & l3 & ->). exists [], l2, l3. reflexivity.
    + exists (y :: l1), l2, l3. reflexivity.
Qed.

Lemma find_duplicates_from_elem (x : text) (els : list text) (seen : gset text) :
  x ∈ find_duplicates_from seen els
  <-> (x ∈ seen /\ x ∈ els) \/ (exists l1 l2 l3, els = l1 ++ x :: l2 ++ x :: l3).
Proof.
  revert seen. induction els as [|y els IH]; intros seen; cbn [find_duplicates_from].
  - split.
    + intros H. apply elem_of_nil in H. contradiction.
    + intros [[_ H] | (l1 & l2 & l3 & E)]; [apply elem_of_nil in H; contradiction|].
      destruct l1; discriminate.
  - rewrite twice_cons. destruct (decide (y ∈ seen)) as [Hy|Hy].
    + rewrite elem_of_cons, IH, elem_of_cons. split.
      * intros [-> | [[H1 H2] | H]]; [left; auto | left; auto | right; right; exact H].
      * intros [[H1 [-> | H2]] | [[-> H] | H]]; tauto.
    + rewrite IH, elem_of_union, elem_of_singleton, elem_of_cons. split.
      * intros [[[-> | H1] H2] | H]; tauto.
      * intros [[H1 [-> | H2]] | [[-> H] | H]]; tauto.
Qed.

(** X4.  [_find_duplicates] returns the empty list exactly when no
    element occurs twice. *)
Theorem X4_find_duplicates_nil_iff_NoDup (els : list text) :
  _find_duplicates els = [] <-> NoDup els.
Proof. apply find_duplicates_nil. Qed.

(** X5.  The elements [_find_duplicates] reports are those that occur
    at two places of the list. *)
Theorem X5_find_duplicates_elem (x : text) (els : list text) :
  x ∈ _find_duplicates els
  <-> exists l1 l2 l3, els = l1 ++ x :: l2 ++ x :: l3.
Proof.
  unfold _find_duplicates. rewrite find_duplicates_from_elem.
  split; [|auto]. intros [[H _] | H]; [|exact H].
  apply not_elem_of_empty in H. contradiction.
Qed.

(** ** Tokens *)

Section TokenFacts.
Context `{RT : PyRuntime}.

Lemma filter_nonempty_id (l : list text) :
  Forall (fun t => t <> []) l -> filter (fun t => t <> []) l = l.
Proof.
  induction 1 as [|t l Ht _ IH]; [reflexivity|].
  rewrite filter_cons_True by exact Ht. rewrite IH. reflexivity.
Qed.

(** Without the group, every piece is made of word characters. *)
Lemma nonword_split_go_drop_word (s cur : text) (in_sep : bool) :
  (in_sep = false -> all_word cur) ->
  Forall all_word (nonword_split_go false in_sep cur s).
Proof.
  revert cur in_sep. induction s as [|c s IH]; intros cur in_sep Hcur.
  - destruct in_sep; cbn.
    + repeat constructor.
    + constructor; [|constructor]. apply Forall_rev, Hcur. reflexivity.
  - cbn [nonword_split_go]. destruct (is_word c) eqn:Ec, in_sep; cbn [app].
    + apply IH. intros _. constructor; [exact Ec | constructor].
    + apply IH. intros _. constructor; [exact Ec | apply Hcur; reflexivity].
    + apply IH. discriminate.
    + constructor; [apply Forall_rev, Hcur; reflexivity|]. apply IH. discriminate.
Qed.

(** With the group, every piece is made of word characters only or of
    other characters only. *)
Lemma nonword_split_go_keep_homogeneous (s cur : text) (in_sep : bool) :
  Forall (fun c => is_word c = negb in_sep) cur ->
  Forall (fun t => all_word t \/ all_nonword t) (nonword_split_go true in_sep cur s).
Proof.
  revert cur in_sep. induction s as [|c s IH]; intros cur in_sep Hcur.
  - destruct in_sep; cbn.
    + constructor; [right; apply Forall_rev, Hcur|].
      constructor; [left; constructor | constructor].
    + constructor; [left; apply Forall_rev, Hcur | constructor].
  - cbn [nonword_split_go]. destruct (is_word c) eqn:Ec, in_sep; cbn [app].
    + constructor; [right; apply Forall_rev, Hcur|].
      apply IH. constructor; [exact Ec | constructor].
    + apply IH. constructor; [exact Ec | exact Hcur].
    + apply IH. constructor; [exact Ec | exact Hcur].
    + constructor; [left; apply Forall_rev, Hcur|].
      apply IH. constructor; [exact Ec | constructor].
Qed.

(** A run of word characters goes to the piece being read. *)
Lemma nonword_split_go_word_run (keep : bool) (t s cur : text) :
  all_word t ->
  nonword_split_go keep false cur (t ++ s)
  = nonword_split_go keep false (rev t ++ cur) s.
Proof.
  intros Ht. revert cur. induction Ht as [|c t Hc _ IH]; intros cur; [reflexivity|].
  cbn [app nonword_split_go]. rewrite Hc, IH. cbn [rev].
  rewrite <- app_assoc. reflexivity.
Qed.

(** A run of other characters is one match. *)
Lemma nonword_split_go_nonword_run (s cur : text) :
  all_nonword s ->
  nonword_split_go true true cur s = [rev cur ++ s; []].
Proof.
  intros Hs. revert cur. induction Hs as [|c s Hc _ IH]; intros cur.
  - cbn. rewrite app_nil_r. reflexivity.
  - cbn [nonword_split_go]. rewrite Hc, IH. cbn [rev].
    rewrite <- app_assoc. reflexivity.
Qed.

(** The split of space-joined word tokens is the tokens. *)
Lemma nonword_split_go_join (t : text) (toks : list text) (cur : text) :
  is_word 32 = false ->
  Forall (fun t => t <> [] /\ all_word t) (t :: toks) ->
  nonword_split_go false false cur (py_join (txt " ") (t :: toks))
  = (rev cur ++ t) :: toks.
Proof.
  intros Hsp H. revert t cur H. induction toks as [|t2 toks IH]; intros t cur H.
  - apply Forall_inv in H as [_ Ht]. cbn [py_join].
    rewrite <- (app_nil_r t) at 1. rewrite nonword_split_go_word_run by exact Ht.
    cbn. rewrite rev_app_distr, rev_involutive. reflexivity.
  - pose proof (Forall_inv H) as [_ Ht]. apply Forall_inv_tail in H.
    change (py_join (txt " ") (t :: t2 :: toks))
      with (t ++ 32 :: py_join (txt " ") (t2 :: toks)).
    rewrite nonword_split_go_word_run by exact Ht.
    cbn [nonword_split_go]. rewrite Hsp.
    rewrite rev_app_distr, rev_involutive. f_equal.
    specialize (IH t2 [] H). cbn [rev app] in IH.
    pose proof (Forall_inv H) as [Hne Ht2].
    transitivity (nonword_split_go false false [] (py_join (txt " ") (t2 :: toks)));
      [|exact IH].
    destruct t2 as [|c t2]; [contradiction|].
    apply Forall_inv in Ht2.
    destruct toks as [|t3 toks]; cbn [py_join app nonword_split_go];
      rewrite Ht2; reflexivity.
Qed.

End TokenFacts.

(** X6.  A [Tokenizer] with [alphanum_only=True] and no reserved tokens
    tokenizes every string, and each token is non-empty and made of
    word characters only. *)
Theorem X6_alphanum_only_tokens_are_words `{RT : PyRuntime} (s : text) :
  exists toks,
    (tk ← Tokenizer_init true []; tokenize tk s) = Ok toks
    /\ Forall (fun t => t <> [] /\ Forall (fun c => is_word c = true) t) toks.
Proof.
  eexists. split.
  - cbn. unfold tokenize. cbn.
    destruct (decide (∅ = ∅)) as [_|H]; [|contradiction].
    cbn [mbind result_bind flat_map].
    destruct (decide (s ∈ ∅)) as [H|_]; [apply not_elem_of_empty in H; contradiction|].
    cbn [_alphanum_re word_regex_split]. rewrite app_nil_r. reflexivity.
  - apply Forall_forall. intros t Ht. apply list_elem_of_filter in Ht as [Hne Hin].
    split; [exact Hne|].
    pose proof (nonword_split_go_drop_word s [] false (fun _ => Forall_nil_2 _)) as H.
    rewrite Forall_forall in H. apply H, Hin.
Qed.

(** X7.  A [Tokenizer] with [alphanum_only=False] and no reserved tokens
    tokenizes every string, and each token is non-empty and made either
    of word characters only or of other characters only. *)
Theorem X7_all_tokens_are_homogeneous `{RT : PyRuntime} (s : text) :
  exists toks,
    (tk ← Tokenizer_init false []; tokenize tk s) = Ok toks
    /\ Forall (fun t => t <> []
                        /\ (Forall (fun c => is_word c = true) t
                            \/ Forall (fun c => is_word c = false) t)) toks.
Proof.
  eexists. split.
  - cbn. unfold tokenize. cbn.
    destruct (decide (∅ = ∅)) as [_|H]; [|contradiction].
    cbn [mbind result_bind flat_map].
    destruct (decide (s ∈ ∅)) as [H|_]; [apply not_elem_of_empty in H; contradiction|].
    cbn [_alphanum_re word_regex_split]. rewrite app_nil_r. reflexivity.
  - apply Forall_forall. intros t Ht. apply list_elem_of_filter in Ht as [Hne Hin].
    split; [exact Hne|].
    pose proof (nonword_split_go_keep_homogeneous s [] false (Forall_nil_2 _)) as H.
    rewrite Forall_forall in H. apply H, Hin.
Qed.

(** X8.  With [alphanum_only=True] and no reserved tokens, and the space
    not a word character, [tokenize] undoes [join] on non-empty tokens
    made of word characters. *)
Theorem X8_tokenize_join `{RT : PyRuntime} (tk : Tokenizer) (toks : list text) :
  is_word 32 = false ->
  Tokenizer_init true [] = Ok tk ->
  Forall (fun t => t <> [] /\ Forall (fun c => is_word c = true) t) toks ->
  tokenize tk (join tk toks) = Ok toks.
Proof.
  intros Hsp [= <-] Htoks. unfold tokenize, join.
  cbn [_alphanum_only _reserved_tokens _reserved_tokens_re _alphanum_re].
  destruct (decide (∅ = ∅)) as [_|H]; [|exfalso; apply H; reflexivity].
  cbn [mbind result_bind flat_map].
  destruct (decide (_ ∈ ∅)) as [H|_]; [exfalso; revert H; apply not_elem_of_empty|].
  cbn [word_regex_split]. rewrite app_nil_r. f_equal.
  destruct toks as [|t toks]; [reflexivity|].
  rewrite (nonword_split_go_join t toks [] Hsp Htoks). cbn [rev app].
  apply filter_nonempty_id. eapply Forall_impl; [exact Htoks|].
  cbv beta. tauto.
Qed.

(** X9.  [is_mixed_alphanum] holds exactly of the tokens that have a
    word character and a character that is not one. *)
Theorem X9_is_mixed_alphanum_iff `{RT : PyRuntime} (token : text) :
  is_mixed_alphanum token = true
  <-> (exists c, c ∈ token /\ is_word c = true)
      /\ (exists c, c ∈ token /\ is_word c = false).
Proof.
  unfold is_mixed_alphanum. rewrite bool_decide_eq_true.
  cbn [word_regex_split].
  assert (forall t : text, ~ all_word t -> exists c, c ∈ t /\ is_word c = false) as Hnw.
  { intros t H. apply not_Forall_Exists in H; [|intros c; apply _].
    apply Exists_exists in H as (c & Hc & Hw). exists c. split; [exact Hc|].
    unfold compose in Hw. cbv beta in Hw.
    destruct (is_word c); [exfalso; apply Hw; reflexivity | reflexivity]. }
  assert (forall t : text, ~ all_nonword t -> exists c, c ∈ t /\ is_word c = true) as Hw.
  { intros t H. apply not_Forall_Exists in H; [|intros c; apply _].
    apply Exists_exists in H as (c & Hc & Hw). exists c. split; [exact Hc|].
    unfold compose in Hw. cbv beta in Hw.
    destruct (is_word c); [reflexivity | exfalso; apply Hw; reflexivity]. }
  split.
  - intros Hlen. split.
    + apply Hw. intros Hall. destruct token as [|c token].
      * cbn [nonword_split_go rev] in Hlen.
        rewrite filter_cons_False in Hlen by (intros H; apply H; reflexivity).
        rewrite filter_nil in Hlen. cbn in Hlen. lia.
      * pose proof (Forall_inv Hall) as Hc. apply Forall_inv_tail in Hall.
        cbn [nonword_split_go] in Hlen. rewrite Hc in Hlen.
        rewrite (nonword_split_go_nonword_run token [c] Hall) in Hlen.
        cbn [rev app] in Hlen.
        rewrite filter_cons_False in Hlen by (intros H; apply H; reflexivity).
        rewrite filter_cons_True in Hlen by discriminate.
        rewrite filter_cons_False in Hlen by (intros H; apply H; reflexivity).
        rewrite filter_nil in Hlen. cbn in Hlen. lia.
    + apply Hnw. intros Hall.
      rewrite <- (app_nil_r token) in Hlen.
      rewrite (nonword_split_go_word_run true token [] [] Hall) in Hlen.
      cbn [nonword_split_go] in Hlen.
      destruct (decide (rev (rev token ++ []) = [])) as [E|E].
      * rewrite filter_cons_False in Hlen by (intros H; apply H; exact E).
        rewrite filter_nil in Hlen. cbn in Hlen. lia.
      * rewrite filter_cons_True in Hlen by exact E.
        rewrite filter_nil in Hlen. cbn in Hlen. lia.
  - intros [(c1 & Hc1 & Hw1) (c2 & Hc2 & Hw2)].
    pose proof (nonword_split_go_concat token [] false) as Hcat.
    rewrite <- concat_filter_nonempty in Hcat. cbn [rev app] in Hcat.
    pose proof (nonword_split_go_keep_homogeneous token [] false (Forall_nil_2 _)) as Hh.
    destruct (filter (fun t => t <> []) (nonword_split_go true false [] token))
      as [|p [|q l]] eqn:Ef.
    + cbn in Hcat. subst token. apply elem_of_nil in Hc1. contradiction.
    + cbn in Hcat. rewrite app_nil_r in Hcat. subst p.
      assert (token ∈ nonword_split_go true false [] token) as Hin.
      { assert (token ∈ [token]) as H by left. rewrite <- Ef in H.
        apply list_elem_of_filter in H as [_ H]. exact H. }
      rewrite Forall_forall in Hh. destruct (Hh token Hin) as [Ha|Ha].
      * unfold all_word in Ha. rewrite Forall_forall in Ha.
        specialize (Ha c2 Hc2). congruence.
      * unfold all_nonword in Ha. rewrite Forall_forall in Ha.
        specialize (Ha c1 Hc1). congruence.
    + cbn. lia.
Qed.

(** ** Decoding *)

Lemma py_index_nonneg {A} (l : list A) (j : Z) (x : A) :
  0 <= j -> l !! Z.to_nat j = Some x -> py_index l j = Ok x.
Proof.
  intros Hj Hl. pose proof (lookup_lt_Some _ _ _ Hl) as Hlt. unfold py_index.
  destruct (Z.ltb_spec j 0); [lia|].
  destruct (Z.leb_spec 0 j); [|lia].
  destruct (Z.ltb_spec j (Z.of_nat (length l))); [|lia].
  cbn [andb]. rewrite Hl. reflexivity.
Qed.

Lemma py_index_last {A} (l : list A) (x : A) :
  last l = Some x -> py_index l (-1) = Ok x.
Proof.
  intros Hl. destruct l as [|y l] using rev_ind; [discriminate|].
  rewrite last_snoc in Hl. injection Hl as ->.
  apply (py_index_from_end l [] x).
Qed.

(** On ids that are not all zero and end with a nonzero id, [pad_decr]
    only decrements. *)
Lemma pad_decr_no_trailing_pad (l : list Z) (x : Z) :
  x <> 0 -> pad_decr (l ++ [x]) = Ok (map (fun i => i - 1) (l ++ [x])).
Proof. intros Hx. apply (pad_decr_last_nonzero l [] x Hx). constructor. Qed.

(** An entry of the table points at its token. *)
Lemma index_table_lookup_Some (l : list text) (t : text) (i : Z) :
  index_table l !! t = Some i -> l !! Z.to_nat i = Some t.
Proof.
  revert i. induction l as [|x l IH] using rev_ind; intros i.
  - unfold index_table, py_dict. cbn. rewrite lookup_empty. discriminate.
  - rewrite index_table_snoc.
    destruct (decide (x = t)) as [->|Hne].
    + rewrite lookup_insert_eq. intros [= <-]. rewrite Nat2Z.id.
      rewrite lookup_app_r by lia. rewrite Nat.sub_diag. reflexivity.
    + rewrite lookup_insert_ne by exact Hne. intros H.
      pose proof (IH i H) as Hl. rewrite lookup_app_l; [exact Hl|].
      apply lookup_lt_Some in Hl. exact Hl.
Qed.

Section DecodeFacts.
Context `{RT : PyRuntime}.

Lemma TokenTextEncoder_decode_ids_nonneg (e : TokenTextEncoder) (js : list Z) :
  Forall (fun j => 0 <= j) js ->
  TokenTextEncoder_decode_ids e js = Ok (map (token_of e) js).
Proof.
  induction 1 as [|j js Hj _ IH]; [reflexivity|].
  cbn [TokenTextEncoder_decode_ids map]. rewrite IH. unfold token_of at 2.
  destruct (Z.ltb_spec j (Z.of_nat (length (_vocab_list e)))) as [Hlt|Hge].
  - destruct (lookup_lt_is_Some_2 (_vocab_list e) (Z.to_nat j)) as [x Hx]; [lia|].
    rewrite (py_index_nonneg _ j x Hj Hx), Hx. reflexivity.
  - rewrite lookup_ge_None_2 by lia. reflexivity.
Qed.

(** The ids of the loop of [encode] decode to the token, or to
    [oov_token] for a token that is not in the vocabulary. *)
Lemma TokenTextEncoder_encode_tokens_decode (e : TokenTextEncoder)
    (tokens : list text) (ids : list Z) :
  _token_to_id e = index_table (_vocab_list e) ->
  TokenTextEncoder_encode_tokens e tokens = Ok ids ->
  Forall (fun j => 0 <= j) ids
  /\ map (token_of e) ids
     = map (fun t => if decide (t ∈ _vocab_list e) then t else _oov_token e) tokens.
Proof.
  intros Htab. revert ids. induction tokens as [|token rest IH]; intros ids.
  - intros [= <-]. split; [constructor | reflexivity].
  - cbn [TokenTextEncoder_encode_tokens].
    match goal with |- context [mbind _ ?m] =>
      destruct m as [int_id|] eqn:Ei end; [|discriminate].
    cbn [mbind result_bind].
    destruct (TokenTextEncoder_encode_tokens e rest) as [ids'|]; [|discriminate].
    cbn [mbind result_bind]. intros [= <-].
    destruct (IH ids' eq_refl) as [IH1 IH2].
    rewrite Htab in Ei. cbn [map]. rewrite IH2.
    destruct (index_table (_vocab_list e) !! token) as [i|] eqn:El;
      cbn [from_option id] in Ei.
    + pose proof (index_table_lookup_range _ _ _ El) as Hr.
      apply index_table_lookup_Some in El.
      destruct (Z.ltb_spec i 0); [lia|]. injection Ei as <-.
      split; [constructor; [lia | exact IH1]|].
      unfold token_of. rewrite El. cbn [from_option id].
      destruct (decide (token ∈ _vocab_list e)) as [_|Hn]; [reflexivity|].
      exfalso. apply Hn. eapply list_elem_of_lookup_2, El.
    + apply index_table_lookup_None in El.
      destruct (decide (token ∈ _vocab_list e)) as [Hin|_]; [contradiction|].
      change (-1 <? 0) with true in Ei. cbv iota in Ei.
      unfold _oov_bucket in Ei.
      destruct (Z.leb_spec (_oov_buckets e) 0); [discriminate|].
      assert (Z.of_nat (length (_vocab_list e)) <= int_id) as Hge.
      { destruct (Z.eqb_spec (_oov_buckets e) 1) as [E1|E1].
        - cbn [mbind result_bind] in Ei. injection Ei as <-. lia.
        - destruct (as_bytes token) as [bs|]; [|discriminate].
          cbn [mbind result_bind] in Ei. injection Ei as <-.
          pose proof (Z.mod_pos_bound (md5_int bs) (_oov_buckets e)). lia. }
      split; [constructor; [lia | exact IH1]|].
      unfold token_of. rewrite lookup_ge_None_2 by lia. reflexivity.
Qed.

Lemma pad_decr_pad_incr_nonneg (ids : list Z) :
  ids <> [] -> Forall (fun j => 0 <= j) ids -> pad_decr (pad_incr ids) = Ok ids.
Proof. intros Hne H. apply pad_decr_pad_incr; assumption. Qed.

End DecodeFacts.

Lemma forallb_map_ext {A B} (f : B -> bool) (g : A -> B) (h : A -> bool)
    (l : list A) :
  (forall a, f (g a) = h a) -> forallb f (map g l) = forallb h l.
Proof.
  intros H. induction l as [|a l IH]; [reflexivity|].
  cbn [map forallb]. rewrite H, IH. reflexivity.
Qed.

(** X10.  Without additional tokens, [decode] gives back every string
    but the empty one from the ids [encode] returned for it. *)
Theorem X10_byte_roundtrip_nonempty `{RT : PyRuntime} (e : ByteTextEncoder)
    (s : text) (ids : list Z) :
  ByteTextEncoder_init [] = Ok e ->
  s <> [] ->
  encode e s = Ok ids ->
  decode e ids = Ok s.
Proof. apply ByteTextEncoder_roundtrip_nonempty. Qed.


(** X12.  For ids that end, before trailing pad ids, with a nonzero id,
    [ByteTextEncoder.decode] raises the byte-range [ValueError] as soon
    as one of the ids kept is outside 1..256 (a pad id before the end is
    one, as it is decremented to -1); otherwise it is the UTF-8 decoding
    of the ids kept, each decremented. *)
Theorem X12_byte_decode_ids_kept `{RT : PyRuntime} (b : ByteTextEncoder)
    (l zs : list Z) (x : Z) :
  x <> 0 ->
  Forall (fun i => i = 0) zs ->
  decode b (l ++ x :: zs) =
  if forallb (fun i => (1 <=? i) && (i <=? 256)) (l ++ [x])
  then as_text (map (fun i => i - 1) (l ++ [x]))
  else Err ByteRangeError.
Proof.
  intros Hx Hz. cbn [decode ByteTextEncoder_TextEncoder].
  unfold ByteTextEncoder_decode.
  rewrite (pad_decr_last_nonzero l zs x Hx Hz). cbn [mbind result_bind].
  unfold py_bytearray.
  rewrite (forallb_map_ext _ _ (fun i => (1 <=? i) && (i <=? 256))).
  - destruct (forallb _ (l ++ [x])); reflexivity.
  - intros i. unfold NUM_BYTES. change (2 ^ 8) with 256.
    destruct (Z.leb_spec 0 (i - 1)), (Z.ltb_spec (i - 1) 256),
      (Z.leb_spec 1 i), (Z.leb_spec i 256); cbn [andb];
      first [reflexivity | lia].
Qed.

(** X13.  [TokenTextEncoder.decode] of a non-empty sequence of ids that
    are all 1 or more never raises: each id within the vocabulary gives
    its token, each id beyond it gives [oov_token], and the tokens are
    joined by single spaces. *)
Theorem X13_token_decode_ids `{RT : PyRuntime} (e : TokenTextEncoder)
    (ids : list Z) :
  ids <> [] ->
  Forall (fun i => 1 <= i) ids ->
  decode e ids =
  Ok (py_join (txt " ")
        (map (fun i => default (_oov_token e)
                         (_vocab_list e !! Z.to_nat (i - 1))) ids)).
Proof.
  intros Hne Hpos. cbn [decode TokenTextEncoder_TextEncoder].
  unfold TokenTextEncoder_decode.
  destruct (exists_last Hne) as (l & x & ->).
  rewrite pad_decr_no_trailing_pad.
  2:{ apply Forall_app in Hpos as [_ Hx]. apply Forall_inv in Hx. lia. }
  cbn [mbind result_bind].
  rewrite TokenTextEncoder_decode_ids_nonneg.
  2:{ apply Forall_map. eapply Forall_impl; [exact Hpos|]. cbv beta. intros; lia. }
  cbn [mbind result_bind]. rewrite map_map. reflexivity.
Qed.

(** X14.  For a text with a token at least, [decode] of the ids
    [encode] returns is the tokens of the text joined by single spaces,
    with [oov_token] in the place of each token that is not in the
    vocabulary. *)
Theorem X14_token_decode_encode `{RT : PyRuntime} (vocab : list text) (oov : Z)
    (tok : text) (lc : bool) (tko : option Tokenizer) (e : TokenTextEncoder)
    (s : text) (tokens : list text) (ids : list Z) :
  TokenTextEncoder_init vocab oov tok lc tko = Ok e ->
  tokenize (_tokenizer e) (if _lowercase e then str_lower s else s) = Ok tokens ->
  tokens <> [] ->
  encode e s = Ok ids ->
  decode e ids =
  Ok (py_join (txt " ")
        (map (fun t => if decide (t ∈ _vocab_list e) then t else _oov_token e)
           tokens)).
Proof.
  intros He Htk Hne.
  destruct (TokenTextEncoder_init_table _ _ _ _ _ _ He) as (Htab & _).
  cbn [encode decode TokenTextEncoder_TextEncoder].
  unfold TokenTextEncoder_encode, TokenTextEncoder_decode. rewrite Htk.
  cbn [mbind result_bind].
  destruct (TokenTextEncoder_encode_tokens e tokens) as [ids'|] eqn:Ee;
    [|discriminate].
  cbn [mbind result_bind]. intros [= <-].
  destruct (TokenTextEncoder_encode_tokens_decode e tokens ids' Htab Ee)
    as [Hpos Hmap].
  rewrite pad_decr_pad_incr_nonneg; [|
    intros ->; apply Hne; destruct tokens; [reflexivity | discriminate Hmap]
    | exact Hpos].
  cbn [mbind result_bind].
  rewrite (TokenTextEncoder_decode_ids_nonneg e ids' Hpos).
  cbn [mbind result_bind]. rewrite Hmap. reflexivity.
Qed.

(** X15.  With [oov_buckets = 1], once the text is tokenized [encode]
    does not raise: a token of the vocabulary gets its table entry plus
    one, and every other token the same id, the size of the vocabulary
    plus one. *)
Theorem X15_single_oov_bucket `{RT : PyRuntime} (vocab : list text)
    (tok : text) (lc : bool) (tko : option Tokenizer) (e : TokenTextEncoder)
    (s : text) (tokens : list text) :
  TokenTextEncoder_init vocab 1 tok lc tko = Ok e ->
  tokenize (_tokenizer e) (if _lowercase e then str_lower s else s) = Ok tokens ->
  encode e s =
  Ok (map (fun t => match _token_to_id e !! t with
                    | Some i => i + 1
                    | None => Z.of_nat (length (_vocab_list e)) + 1
                    end) tokens).
Proof.
  intros He Htk.
  destruct (TokenTextEncoder_init_table _ _ _ _ _ _ He) as (Htab & Hoov & _).
  cbn [encode TokenTextEncoder_TextEncoder].
  unfold TokenTextEncoder_encode. rewrite Htk. cbn [mbind result_bind].
  assert (TokenTextEncoder_encode_tokens e tokens
          = Ok (map (fun t => match _token_to_id e !! t with
                              | Some i => i
                              | None => Z.of_nat (length (_vocab_list e))
                              end) tokens)) as ->.
  { clear Htk. induction tokens as [|t rest IH]; [reflexivity|].
    cbn [TokenTextEncoder_encode_tokens map]. rewrite IH.
    destruct (_token_to_id e !! t) as [i|] eqn:El; cbn [from_option id].
    - rewrite Htab in El. apply index_table_lookup_range in El.
      destruct (Z.ltb_spec i 0); [lia|]. reflexivity.
    - change (-1 <? 0) with true. cbv iota. unfold _oov_bucket. rewrite Hoov.
      reflexivity. }
  cbn [mbind result_bind]. unfold pad_incr. rewrite map_map. f_equal.
  apply map_ext. intros t. destruct (_token_to_id e !! t); reflexivity.
Qed.

(** X16.  With the default tokenizer, a vocabulary in which a token
    that mixes word characters and others stands twice (once stripped,
    and lowercased if asked) cannot be made into a [TokenTextEncoder]:
    the construction of its tokenizer raises the duplicate-token
    error. *)
Theorem X16_duplicate_mixed_token_rejected `{RT : PyRuntime}
    (vocab : list text) (oov : Z) (tok : text) (lc : bool) :
  ~ NoDup (List.filter is_mixed_alphanum
             (if lc then map str_lower (map str_strip vocab)
              else map str_strip vocab)) ->
  exists dups, dups <> []
    /\ TokenTextEncoder_init vocab oov tok lc None = Err (DuplicateTokens dups).
Proof.
  intros Hd. destruct (prepare_reserved_tokens_dup _ Hd) as [Hne Hp].
  eexists. split; [exact Hne|].
  unfold TokenTextEncoder_init, Tokenizer_init. rewrite Hp. reflexivity.
Qed.

(** X17.  A pad id before the end of the sequence makes
    [TokenTextEncoder.decode] read [vocab_list[-1]]: it decodes as the
    last token of the vocabulary. *)
Theorem X17_token_decode_inner_pad `{RT : PyRuntime} (e : TokenTextEncoder)
    (l : list Z) (x : Z) (w : text) :
  last (_vocab_list e) = Some w ->
  Forall (fun i => 0 <= i) l ->
  1 <= x ->
  decode e (l ++ [x]) =
  Ok (py_join (txt " ")
        (map (fun i => if i =? 0 then w
                       else default (_oov_token e)
                              (_vocab_list e !! Z.to_nat (i - 1)))
           (l ++ [x]))).
Proof.
  intros Hw Hl Hx. cbn [decode TokenTextEncoder_TextEncoder].
  unfold TokenTextEncoder_decode.
  rewrite pad_decr_no_trailing_pad by lia. cbn [mbind result_bind].
  assert (Forall (fun i => 0 <= i) (l ++ [x])) as Hall
    by (apply Forall_app; split; [exact Hl | constructor; [lia | constructor]]).
  assert (TokenTextEncoder_decode_ids e (map (fun i => i - 1) (l ++ [x]))
          = Ok (map (fun i => if i =? 0 then w
                              else default (_oov_token e)
                                     (_vocab_list e !! Z.to_nat (i - 1)))
                  (l ++ [x]))) as ->; [|reflexivity].
  induction Hall as [|i ids Hi _ IH]; [reflexivity|].
  cbn [map TokenTextEncoder_decode_ids]. rewrite IH.
  destruct (Z.eqb_spec i 0) as [->|Hnz].
  - change (0 - 1) with (-1).
    destruct (Z.ltb_spec (-1) (Z.of_nat (length (_vocab_list e)))); [|lia].
    rewrite (py_index_last _ w Hw). reflexivity.
  - destruct (Z.ltb_spec (i - 1) (Z.of_nat (length (_vocab_list e)))) as [Hlt|Hge].
    + destruct (lookup_lt_is_Some_2 (_vocab_list e) (Z.to_nat (i - 1))) as [y Hy];
        [lia|].
      rewrite (py_index_nonneg _ (i - 1) y) by (first [lia | exact Hy]).
      rewrite Hy. reflexivity.
    + rewrite lookup_ge_None_2 by lia. reflexivity.
Qed.

(** ** Files *)

Lemma as_bytes_app (a b : text) :
  as_bytes (a ++ b) = (ba ← as_bytes a; bb ← as_bytes b; Ok (ba ++ bb)).
Proof.
  induction a as [|c a IH]; cbn [app as_bytes].
  - cbn [mbind result_bind]. destruct (as_bytes b); reflexivity.
  - destruct (utf8_encode_cp c) as [bc|]; [|reflexivity].
    cbn [mbind result_bind]. rewrite IH.
    destruct (as_bytes a) as [ba|]; [|reflexivity]. cbn [mbind result_bind].
    destruct (as_bytes b) as [bb|]; [|reflexivity]. cbn [mbind result_bind].
    rewrite app_assoc. reflexivity.
Qed.

Lemma utf8_encode_cp_no_newline (c : Z) (bs : list Z) :
  utf8_encode_cp c = Ok bs -> c <> 10 -> 10 ∉ bs.
Proof.
  unfold utf8_encode_cp. intros H Hc Hin. revert H.
  destruct (Z.ltb_spec c 0); [discriminate|].
  destruct (Z.ltb_spec c 0x80).
  { intros [= <-]. apply list_elem_of_singleton in Hin. lia. }
  destruct (Z.ltb_spec c 0x800).
  { intros [= <-]. repeat (apply elem_of_cons in Hin as [Hin|Hin];
      [revert Hin; Z.div_mod_to_equations; lia|]).
    apply elem_of_nil in Hin. exact Hin. }
  destruct (Z.ltb_spec c 0x10000).
  { destruct (is_surrogate c); [discriminate|].
    intros [= <-]. repeat (apply elem_of_cons in Hin as [Hin|Hin];
      [revert Hin; Z.div_mod_to_equations; lia|]).
    apply elem_of_nil in Hin. exact Hin. }
  destruct (Z.ltb_spec c 0x110000); [|discriminate].
  intros [= <-]. repeat (apply elem_of_cons in Hin as [Hin|Hin];
      [revert Hin; Z.div_mod_to_equations; lia|]).
  apply elem_of_nil in Hin. exact Hin.
Qed.

Lemma as_bytes_no_newline (s : text) (bs : list Z) :
  as_bytes s = Ok bs -> 10 ∉ s -> 10 ∉ bs.
Proof.
  revert bs. induction s as [|c s IH]; intros bs.
  - intros [= <-] _. apply not_elem_of_nil.
  - cbn [as_bytes]. destruct (utf8_encode_cp c) as [bc|] eqn:Ec; [|discriminate].
    cbn [mbind result_bind].
    destruct (as_bytes s) as [r|]; [|discriminate].
    cbn [mbind result_bind]. intros [= <-] Hn.
    apply not_elem_of_cons in Hn as [Hc Hs].
    intros [Hin|Hin]%elem_of_app.
    + eapply utf8_encode_cp_no_newline; eauto.
    + eapply IH; eauto.
Qed.

Lemma file_lines_go_line (bs rest cur : list Z) :
  10 ∉ bs ->
  file_lines_go cur (bs ++ 10 :: rest)
  = (rev cur ++ bs ++ [10]) :: file_lines_go [] rest.
Proof.
  revert cur. induction bs as [|b bs IH]; intros cur Hn.
  - cbn. reflexivity.
  - apply not_elem_of_cons in Hn as [Hb Hn]. cbn [app file_lines_go].
    destruct (Z.eqb_spec b 10); [congruence|].
    rewrite IH by exact Hn. cbn [rev]. rewrite <- !app_assoc. reflexivity.
Qed.

Lemma py_slice_to_drop_last {A} (l : list A) (x : A) :
  py_slice_to (l ++ [x]) (-1) = l.
Proof.
  unfold py_slice_to. rewrite length_app. cbn [length].
  change (-1 <? 0) with true. cbv iota.
  replace (Z.to_nat _) with (length l) by lia.
  apply take_app_length.
Qed.

Lemma plain_line_bytes (s : text) :
  plain_line s -> exists bs, as_bytes s = Ok bs /\ 10 ∉ bs.
Proof.
  intros [Hn Hok]. destruct (as_bytes s) as [bs|] eqn:E; [|discriminate].
  exists bs. split; [reflexivity|]. eapply as_bytes_no_newline; eauto.
Qed.

(** A file that holds plain lines reads back as these lines. *)
Lemma decode_lines_unlines (ls : list text) :
  Forall plain_line ls ->
  exists bs, as_bytes (unlines ls) = Ok bs
             /\ decode_lines (file_lines bs) = Ok ls.
Proof.
  induction 1 as [|l ls Hl _ (bs & Hbs & Hdec)].
  - exists []. split; reflexivity.
  - destruct (plain_line_bytes l Hl) as (bl & Hbl & Hnl).
    assert (as_bytes (l ++ [10]) = Ok (bl ++ [10])) as Hb
      by (rewrite as_bytes_app, Hbl; reflexivity).
    exists (bl ++ 10 :: bs). split.
    + change (unlines (l :: ls)) with ((l ++ [10]) ++ unlines ls).
      rewrite as_bytes_app, Hb, Hbs. cbn [mbind result_bind].
      rewrite <- app_assoc. reflexivity.
    + unfold file_lines in *. rewrite file_lines_go_line by exact Hnl.
      cbn [rev app decode_lines].
      rewrite (as_text_as_bytes _ _ Hb). cbn [mbind result_bind].
      rewrite Hdec. cbn [mbind result_bind].
      rewrite py_slice_to_drop_last. reflexivity.
Qed.

(** Chunks that make up an encodable text are all written. *)
Lemma write_all_ok (chunks : list text) (written bs : list Z) :
  as_bytes (concat chunks) = Ok bs ->
  write_all written chunks = (written ++ bs, Ok tt).
Proof.
  revert written bs. induction chunks as [|c chunks IH]; intros written bs.
  - intros [= <-]. cbn. rewrite app_nil_r. reflexivity.
  - cbn [concat write_all]. rewrite as_bytes_app.
    destruct (as_bytes c) as [bc|]; [|discriminate]. cbn [mbind result_bind].
    destruct (as_bytes (concat chunks)) as [br|] eqn:Er; [|discriminate].
    cbn [mbind result_bind]. intros [= <-].
    rewrite (IH (written ++ bc) br eq_refl). rewrite <- app_assoc. reflexivity.
Qed.

Lemma py_join_newline_unlines (l : text) (ls : list text) :
  py_join newline (l :: ls) ++ newline = unlines (l :: ls).
Proof.
  revert l. induction ls as [|l2 ls IH]; intros l.
  - cbn. rewrite app_nil_r. reflexivity.
  - change (py_join newline (l :: l2 :: ls))
      with (l ++ newline ++ py_join newline (l2 :: ls)).
    rewrite <- !app_assoc, IH. unfold unlines. cbn [flat_map].
    rewrite <- !app_assoc. reflexivity.
Qed.

Lemma plain_line_app (a b : text) : plain_line a -> plain_line b -> plain_line (a ++ b).
Proof.
  intros [Ha1 Ha2] [Hb1 Hb2]. split.
  - rewrite elem_of_app. tauto.
  - rewrite as_bytes_app.
    destruct (as_bytes a); [|discriminate]. destruct (as_bytes b); [|discriminate].
    reflexivity.
Qed.

Lemma plain_line_txt_header : plain_line _HEADER_PREFIX.
Proof.
  split; [|reflexivity]. unfold _HEADER_PREFIX. cbn.
  intros H. repeat (apply elem_of_cons in H as [H|H]; [discriminate H|]).
  apply elem_of_nil in H. exact H.
Qed.

Lemma plain_line_txt_metadata : plain_line _METADATA_PREFIX.
Proof.
  split; [|reflexivity]. unfold _METADATA_PREFIX. cbn.
  intros H. repeat (apply elem_of_cons in H as [H|H]; [discriminate H|]).
  apply elem_of_nil in H. exact H.
Qed.

Section FileFacts.
Context `{RT : PyRuntime} `{HOST : PyHost}.

(** What [write_lines_to_file] leaves in the file, and what
    [read_lines_from_file] makes of it under any class name. *)
Lemma write_then_read (cls_name cls_name' filename : text) (lines : list text)
    (metadata_dict : option (gmap text json_value)) (fs : gmap text (list Z)) :
  let md := default ∅ metadata_dict in
  plain_line cls_name ->
  plain_line (json_dumps md) ->
  Forall plain_line lines ->
  let w := write_lines_to_file cls_name filename lines metadata_dict fs in
  w.2 = IoOk tt
  /\ read_lines_from_file cls_name' filename w.1 =
     if decide (_HEADER_PREFIX ++ cls_name = _HEADER_PREFIX ++ cls_name')
     then match json_loads (json_dumps md) with
          | Some md' => IoOk (match lines with [] => [[]] | _ :: _ => lines end, md')
          | None => IoErr JSONDecodeError
          end
     else IoErr (NotCreatedFrom cls_name').
Proof.
  intros md Hc Hm Hl w.
  set (lines' := match lines with [] => [[]] | _ :: _ => lines end).
  set (all := (_HEADER_PREFIX ++ cls_name)
              :: (_METADATA_PREFIX ++ json_dumps md) :: lines').
  assert (Forall plain_line all) as Hall.
  { constructor; [apply plain_line_app; [apply plain_line_txt_header | exact Hc]|].
    constructor; [apply plain_line_app; [apply plain_line_txt_metadata | exact Hm]|].
    subst lines'. destruct lines; [|exact Hl].
    constructor; [|constructor]. split; [apply not_elem_of_nil | reflexivity]. }
  destruct (decode_lines_unlines all Hall) as (bs & Hbs & Hdec).
  assert (concat [_HEADER_PREFIX ++ cls_name; newline;
                  _METADATA_PREFIX ++ json_dumps md; newline;
                  py_join newline lines; newline] = unlines all) as Hcat.
  { subst all. unfold unlines at 1. cbn [flat_map concat].
    rewrite app_nil_r, <- !app_assoc. do 6 f_equal.
    subst lines'. destruct lines as [|l ls]; [reflexivity|].
    apply py_join_newline_unlines. }
  assert (w = (<[filename := bs]> fs, IoOk tt)) as Hw.
  { subst w. unfold write_lines_to_file. fold md.
    rewrite (write_all_ok _ [] bs) by (rewrite Hcat; exact Hbs). reflexivity. }
  rewrite Hw. cbn [fst snd]. split; [reflexivity|].
  unfold read_lines_from_file. rewrite lookup_insert_eq, Hdec.
  subst all. cbn [lift mbind io_result_bind].
  change (py_index ((_HEADER_PREFIX ++ cls_name)
                    :: (_METADATA_PREFIX ++ json_dumps md) :: lines') 0)
    with (@Ok text (_HEADER_PREFIX ++ cls_name)).
  cbn [lift mbind io_result_bind].
  destruct (decide (_ = _)) as [E|E]; [|reflexivity].
  assert (py_index ((_HEADER_PREFIX ++ cls_name)
                    :: (_METADATA_PREFIX ++ json_dumps md) :: lines') 1
          = Ok (_METADATA_PREFIX ++ json_dumps md)) as ->.
  { unfold py_index. cbn [length]. 
    change (1 <? 0) with false. cbv iota. change (0 <=? 1) with true.
    destruct (Z.ltb_spec 1 (Z.of_nat (S (S (length lines'))))); [|lia].
    reflexivity. }
  cbn [lift mbind io_result_bind].
  rewrite drop_app_length. cbn [drop]. reflexivity.
Qed.

End FileFacts.

(** X18.  A file written by [write_lines_to_file] reads back, under the
    same class name, as the lines and the metadata written, when the
    class name, the lines and the JSON text have no newline and can be
    encoded, and [json.loads] undoes [json.dumps] on the metadata.
    Written with no line at all, it reads back with one empty line. *)
Theorem X18_read_write_lines `{RT : PyRuntime} `{HOST : PyHost}
    (cls_name filename : text) (lines : list text)
    (metadata_dict : option (gmap text json_value)) (fs : gmap text (list Z)) :
  plain_line cls_name ->
  plain_line (json_dumps (default ∅ metadata_dict)) ->
  json_loads (json_dumps (default ∅ metadata_dict)) = Some (default ∅ metadata_dict) ->
  Forall plain_line lines ->
  (write_lines_to_file cls_name filename lines metadata_dict fs).2 = IoOk tt
  /\ read_lines_from_file cls_name filename
       (write_lines_to_file cls_name filename lines metadata_dict fs).1
     = IoOk (match lines with [] => [[]] | _ :: _ => lines end,
             default ∅ metadata_dict).
Proof.
  intros Hc Hm Hj Hl.
  destruct (write_then_read cls_name cls_name filename lines metadata_dict fs
              Hc Hm Hl) as [Hw Hr].
  split; [exact Hw|]. rewrite Hr, Hj.
  destruct (decide _) as [_|E]; [reflexivity | exfalso; apply E; reflexivity].
Qed.

(** X19.  Read under another class name than the one it was written
    with, a file makes [read_lines_from_file] raise the error that
    names the class asked for. *)
Theorem X19_read_other_class_raises `{RT : PyRuntime} `{HOST : PyHost}
    (cls_name cls_name' filename : text) (lines : list text)
    (metadata_dict : option (gmap text json_value)) (fs : gmap text (list Z)) :
  cls_name <> cls_name' ->
  plain_line cls_name ->
  plain_line (json_dumps (default ∅ metadata_dict)) ->
  Forall plain_line lines ->
  read_lines_from_file cls_name' filename
    (write_lines_to_file cls_name filename lines metadata_dict fs).1
  = IoErr (NotCreatedFrom cls_name').
Proof.
  intros Hne Hc Hm Hl.
  destruct (write_then_read cls_name cls_name' filename lines metadata_dict fs
              Hc Hm Hl) as [_ Hr].
  rewrite Hr. destruct (decide _) as [E|_]; [|reflexivity].
  apply app_inv_head in E. contradiction.
Qed.

(** ** Saved encoders and tokenizers *)

Ltac solve_plain_line :=
  split; [|reflexivity];
  let H := fresh in
  intros H; vm_compute in H;
  repeat (apply elem_of_cons in H as [H|H]; [discriminate H|]);
  apply elem_of_nil in H; exact H.

Ltac key_ne := let H := fresh in intros H; vm_compute in H; discriminate H.

Lemma plain_line_ByteTextEncoder : plain_line (txt "ByteTextEncoder").
Proof. solve_plain_line. Qed.

Lemma plain_line_TokenTextEncoder : plain_line (txt "TokenTextEncoder").
Proof. solve_plain_line. Qed.

Lemma plain_line_Tokenizer : plain_line (txt "Tokenizer").
Proof. solve_plain_line. Qed.

Section SavedFacts.
Context `{RT : PyRuntime} `{HOST : PyHost}.

(** Reading looks at the one file. *)
Lemma read_lines_from_file_ext (cls_name filename : text)
    (fs1 fs2 : gmap text (list Z)) :
  fs1 !! filename = fs2 !! filename ->
  read_lines_from_file cls_name filename fs1
  = read_lines_from_file cls_name filename fs2.
Proof. intros H. unfold read_lines_from_file. rewrite H. reflexivity. Qed.

Lemma ByteTextEncoder_init_tokens (toks : list text) (e : ByteTextEncoder) :
  ByteTextEncoder_init toks = Ok e -> _additional_tokens e = toks.
Proof.
  unfold ByteTextEncoder_init.
  destruct (_prepare_reserved_tokens toks) as [p|] eqn:Ep; [|discriminate].
  cbn [mbind result_bind]. intros [= <-]. cbn.
  apply (prepare_reserved_tokens_Ok toks p Ep).
Qed.

(** The file of a saved [ByteTextEncoder] reads back as its tokens, or
    as one empty token when it has none. *)
Lemma ByteTextEncoder_save_then_load (e : ByteTextEncoder)
    (filename_prefix : text) (fs : gmap text (list Z)) :
  Forall plain_line (_additional_tokens e) ->
  plain_line (json_dumps ∅) ->
  is_Some (json_loads (json_dumps ∅)) ->
  (ByteTextEncoder_save_to_file e filename_prefix fs).2 = IoOk tt
  /\ ByteTextEncoder_load_from_file filename_prefix
       (ByteTextEncoder_save_to_file e filename_prefix fs).1
     = lift (ByteTextEncoder_init
               (match _additional_tokens e with
                | [] => [[]]
                | _ :: _ => _additional_tokens e
                end)).
Proof.
  intros Hl Hm [md Hj].
  destruct (write_then_read (txt "ByteTextEncoder") (txt "ByteTextEncoder")
              (ByteTextEncoder_filename filename_prefix) (_additional_tokens e)
              None fs plain_line_ByteTextEncoder Hm Hl) as [Hw Hr].
  split; [exact Hw|].
  unfold ByteTextEncoder_load_from_file, ByteTextEncoder_save_to_file.
  rewrite Hr. cbn [from_option id]. rewrite Hj.
  destruct (decide _) as [_|E]; [reflexivity | exfalso; apply E; reflexivity].
Qed.

Lemma Tokenizer_kwargs_lookup (tk : Tokenizer) :
  Tokenizer_kwargs tk !! txt "alphanum_only" = Some (JBool (_alphanum_only tk))
  /\ Tokenizer_kwargs tk !! txt "reserved_tokens"
     = Some (JStrList (set_list (_reserved_tokens tk)))
  /\ dom (Tokenizer_kwargs tk) ⊆ {[txt "alphanum_only"; txt "reserved_tokens"]}.
Proof.
  unfold Tokenizer_kwargs. split; [apply lookup_insert_eq|]. split.
  - rewrite lookup_insert_ne by key_ne. apply lookup_insert_eq.
  - rewrite !dom_insert_L, dom_empty_L. intros x.
    rewrite !elem_of_union, !elem_of_singleton, elem_of_empty. tauto.
Qed.

(** The file of a saved [Tokenizer] loads as the tokenizer built from
    its flag and the listing of its reserved tokens. *)
Lemma Tokenizer_save_then_load (tk : Tokenizer) (filename_prefix : text)
    (fs : gmap text (list Z)) :
  plain_line (json_dumps (Tokenizer_kwargs tk)) ->
  json_loads (json_dumps (Tokenizer_kwargs tk)) = Some (Tokenizer_kwargs tk) ->
  (Tokenizer_save_to_file tk filename_prefix fs).2 = IoOk tt
  /\ (Tokenizer_save_to_file tk filename_prefix fs).1
     = <[Tokenizer_filename filename_prefix :=
           default [] ((Tokenizer_save_to_file tk filename_prefix fs).1
                       !! Tokenizer_filename filename_prefix)]> fs
  /\ Tokenizer_load_from_file filename_prefix
       (Tokenizer_save_to_file tk filename_prefix fs).1
     = lift (Tokenizer_init (_alphanum_only tk) (set_list (_reserved_tokens tk))).
Proof.
  intros Hm Hj.
  destruct (write_then_read (txt "Tokenizer") (txt "Tokenizer")
              (Tokenizer_filename filename_prefix) []
              (Some (Tokenizer_kwargs tk)) fs plain_line_Tokenizer Hm
              (Forall_nil_2 _)) as [Hw Hr].
  split; [exact Hw|]. split.
  { unfold Tokenizer_save_to_file, write_lines_to_file. cbn [fst].
    rewrite lookup_insert_eq. reflexivity. }
  unfold Tokenizer_load_from_file, Tokenizer_save_to_file.
  rewrite Hr. cbn [from_option id]. rewrite Hj.
  destruct (decide _) as [_|E]; [|exfalso; apply E; reflexivity].
  cbn [mbind io_result_bind snd].
  destruct (Tokenizer_kwargs_lookup tk) as (H1 & H2 & H3).
  unfold check_kwargs. destruct (decide _) as [_|E]; [|contradiction].
  cbn [mbind io_result_bind]. unfold kw_bool, kw_strlist. rewrite H1, H2.
  reflexivity.
Qed.

Lemma TokenTextEncoder_kwargs_lookup (e : TokenTextEncoder) :
  let kw := TokenTextEncoder_kwargs e in
  kw !! txt "oov_buckets" = Some (JInt (_oov_buckets e))
  /\ kw !! txt "oov_token" = Some (JStr (_oov_token e))
  /\ kw !! txt "lowercase" = Some (JBool (_lowercase e))
  /\ kw !! txt "tokenizer_file_prefix" = None
  /\ kw !! txt "tokenizer" = None
  /\ dom kw ⊆ {[txt "oov_buckets"; txt "oov_token"; txt "lowercase";
                txt "tokenizer"]}.
Proof.
  unfold TokenTextEncoder_kwargs. cbv zeta.
  split; [rewrite !lookup_insert_ne by key_ne; apply lookup_insert_eq|].
  split; [apply lookup_insert_eq|].
  split; [rewrite lookup_insert_ne by key_ne; apply lookup_insert_eq|].
  split; [rewrite !lookup_insert_ne by key_ne; apply lookup_empty|].
  split; [rewrite !lookup_insert_ne by key_ne; apply lookup_empty|].
  rewrite !dom_insert_L, dom_empty_L. intros x.
  rewrite !elem_of_union, !elem_of_singleton, elem_of_empty. tauto.
Qed.

(** An encoder is the one its own fields construct, when its tokens are
    already stripped (and lowercased, if it lowercases). *)
Lemma TokenTextEncoder_init_again (vocab : list text) (oov : Z) (tok : text)
    (lc : bool) (tko : option Tokenizer) (e : TokenTextEncoder) :
  TokenTextEncoder_init vocab oov tok lc tko = Ok e ->
  map str_strip (_vocab_list e) = _vocab_list e ->
  (lc = true -> map str_lower (_vocab_list e) = _vocab_list e) ->
  TokenTextEncoder_init (_vocab_list e) (_oov_buckets e) (_oov_token e)
    (_lowercase e) tko = Ok e.
Proof.
  unfold TokenTextEncoder_init at 1.
  match goal with |- context [mbind _ ?m] => destruct m as [tk|] eqn:Etk end;
    [|discriminate].
  cbn [mbind result_bind]. intros [= <-]. cbn [_vocab_list _oov_buckets
    _oov_token _lowercase]. intros Hs Hl.
  unfold TokenTextEncoder_init. rewrite Hs.
  assert ((if lc
           then map str_lower (if lc then map str_lower (map str_strip vocab)
                               else map str_strip vocab)
           else (if lc then map str_lower (map str_strip vocab)
                 else map str_strip vocab))
          = (if lc then map str_lower (map str_strip vocab)
             else map str_strip vocab)) as ->.
  { destruct lc; [apply Hl; reflexivity | reflexivity]. }
  rewrite Etk. reflexivity.
Qed.

End SavedFacts.

(** X20.  A [ByteTextEncoder] that has additional tokens, each without
    newline and encodable, is loaded back from the file it was saved
    to. *)
Theorem X20_byte_encoder_save_load `{RT : PyRuntime} `{HOST : PyHost}
    (toks : list text) (e : ByteTextEncoder) (filename_prefix : text)
    (fs : gmap text (list Z)) :
  ByteTextEncoder_init toks = Ok e ->
  toks <> [] ->
  Forall plain_line toks ->
  plain_line (json_dumps ∅) ->
  is_Some (json_loads (json_dumps ∅)) ->
  (ByteTextEncoder_save_to_file e filename_prefix fs).2 = IoOk tt
  /\ ByteTextEncoder_load_from_file filename_prefix
       (ByteTextEncoder_save_to_file e filename_prefix fs).1
     = IoOk e.
Proof.
  intros He Hne Hl Hm Hj.
  pose proof (ByteTextEncoder_init_tokens toks e He) as Ht.
  destruct (ByteTextEncoder_save_then_load e filename_prefix fs) as [Hw Hr];
    [rewrite Ht; exact Hl | exact Hm | exact Hj |].
  split; [exact Hw|]. rewrite Hr, Ht.
  destruct toks; [contradiction|]. rewrite He. reflexivity.
Qed.

(** X21.  A [ByteTextEncoder] without additional tokens is not loaded
    back from its file: the file holds an empty line after the two
    header lines, so that [load_from_file] constructs an encoder with
    the empty string as its one additional token. *)
Theorem X21_byte_encoder_save_load_no_tokens `{RT : PyRuntime} `{HOST : PyHost}
    (e : ByteTextEncoder) (filename_prefix : text) (fs : gmap text (list Z)) :
  ByteTextEncoder_init [] = Ok e ->
  plain_line (json_dumps ∅) ->
  is_Some (json_loads (json_dumps ∅)) ->
  ByteTextEncoder_load_from_file filename_prefix
    (ByteTextEncoder_save_to_file e filename_prefix fs).1
  = lift (ByteTextEncoder_init [[]])
  /\ ByteTextEncoder_load_from_file filename_prefix
       (ByteTextEncoder_save_to_file e filename_prefix fs).1
     <> IoOk e.
Proof.
  intros He Hm Hj.
  pose proof (ByteTextEncoder_init_tokens [] e He) as Ht.
  destruct (ByteTextEncoder_save_then_load e filename_prefix fs) as [_ Hr];
    [rewrite Ht; constructor | exact Hm | exact Hj |].
  rewrite Ht in Hr. rewrite Hr. split; [reflexivity|].
  destruct (ByteTextEncoder_init [[]]) as [e'|] eqn:He'; [|discriminate].
  cbn [lift]. intros [= ->].
  apply ByteTextEncoder_init_tokens in He'. congruence.
Qed.

(** X22.  A [TokenTextEncoder] with the default tokenizer is loaded
    back from the file it was saved to, when its vocabulary is not
    empty, its tokens have no newline and are encodable, stripping (and
    lowercasing, if the encoder lowercases) leaves them as they are, and
    [json.loads] undoes [json.dumps] on the stored arguments. *)
Theorem X22_token_encoder_save_load `{RT : PyRuntime} `{HOST : PyHost}
    (vocab : list text) (oov : Z) (tok : text) (lc : bool)
    (e : TokenTextEncoder) (filename_prefix : text) (fs : gmap text (list Z)) :
  TokenTextEncoder_init vocab oov tok lc None = Ok e ->
  _vocab_list e <> [] ->
  Forall plain_line (_vocab_list e) ->
  map str_strip (_vocab_list e) = _vocab_list e ->
  (lc = true -> map str_lower (_vocab_list e) = _vocab_list e) ->
  plain_line (json_dumps (TokenTextEncoder_kwargs e)) ->
  json_loads (json_dumps (TokenTextEncoder_kwargs e))
    = Some (TokenTextEncoder_kwargs e) ->
  (TokenTextEncoder_save_to_file e filename_prefix fs).2 = IoOk tt
  /\ TokenTextEncoder_load_from_file filename_prefix
       (TokenTextEncoder_save_to_file e filename_prefix fs).1
     = IoOk e.
Proof.
  intros He Hne Hl Hs Hlow Hm Hj.
  assert (_user_defined_tokenizer e = None) as Hu.
  { revert He. unfold TokenTextEncoder_init.
    match goal with |- context [mbind _ ?m] => destruct m end; [|discriminate].
    cbn [mbind result_bind]. intros [= <-]. reflexivity. }
  destruct (write_then_read (txt "TokenTextEncoder") (txt "TokenTextEncoder")
              (TokenTextEncoder_filename filename_prefix) (_vocab_list e)
              (Some (TokenTextEncoder_kwargs e)) fs plain_line_TokenTextEncoder
              Hm Hl) as [Hw Hr].
  assert (match _vocab_list e with [] => [[]] | _ :: _ => _vocab_list e end
          = _vocab_list e) as Hv
    by (destruct (_vocab_list e); [contradiction | reflexivity]).
  rewrite Hv in Hr. clear Hv.
  unfold TokenTextEncoder_save_to_file. rewrite Hu. cbv zeta.
  split; [exact Hw|].
  unfold TokenTextEncoder_load_from_file. cbv zeta.
  rewrite Hr. cbn [from_option id]. rewrite Hj.
  destruct (decide _) as [_|E]; [|exfalso; apply E; reflexivity].
  cbn [mbind io_result_bind fst snd].
  destruct (TokenTextEncoder_kwargs_lookup e) as (H1 & H2 & H3 & H4 & H5 & H6).
  rewrite H4. cbn [mbind io_result_bind].
  rewrite (delete_id _ _ H4).
  unfold check_kwargs. destruct (decide _) as [_|E]; [|contradiction].
  cbn [mbind io_result_bind]. rewrite H5. cbn [mbind io_result_bind].
  unfold kw_int, kw_str, kw_bool. rewrite H1, H2, H3.
  cbn [mbind io_result_bind].
  rewrite (TokenTextEncoder_init_again vocab oov tok lc None e He Hs Hlow).
  reflexivity.
Qed.

(** X23.  Loading a saved [Tokenizer] constructs the tokenizer of its
    [alphanum_only] flag and of its reserved tokens in the order the
    set lists them; a tokenizer that is loaded has the flag and the
    reserved tokens of the one saved. *)
Theorem X23_tokenizer_save_load `{RT : PyRuntime} `{HOST : PyHost}
    (tk : Tokenizer) (filename_prefix : text) (fs : gmap text (list Z)) :
  plain_line (json_dumps (Tokenizer_kwargs tk)) ->
  json_loads (json_dumps (Tokenizer_kwargs tk)) = Some (Tokenizer_kwargs tk) ->
  Tokenizer_load_from_file filename_prefix
    (Tokenizer_save_to_file tk filename_prefix fs).1
  = lift (Tokenizer_init (_alphanum_only tk) (set_list (_reserved_tokens tk)))
  /\ (forall tk',
        Tokenizer_load_from_file filename_prefix
          (Tokenizer_save_to_file tk filename_prefix fs).1 = IoOk tk' ->
        _alphanum_only tk' = _alphanum_only tk
        /\ _reserved_tokens tk' = _reserved_tokens tk).
Proof.
  intros Hm Hj.
  destruct (Tokenizer_save_then_load tk filename_prefix fs Hm Hj) as (_ & _ & Hr).
  split; [exact Hr|]. intros tk'. rewrite Hr.
  unfold Tokenizer_init.
  destruct (_prepare_reserved_tokens _) as [p|] eqn:Ep; [|discriminate].
  cbn [mbind result_bind lift]. intros [= <-]. cbn.
  split; [reflexivity|].
  destruct (prepare_reserved_tokens_Ok _ p Ep) as (-> & _).
  apply leibniz_equiv. rewrite (set_list_perm (_reserved_tokens tk)).
  apply list_to_set_elements.
Qed.

Section SavedWithTokenizer.
Context `{RT : PyRuntime} `{HOST : PyHost}.

Lemma Tokenizer_load_from_file_ext (filename_prefix : text)
    (fs1 fs2 : gmap text (list Z)) :
  fs1 !! Tokenizer_filename filename_prefix
  = fs2 !! Tokenizer_filename filename_prefix ->
  Tokenizer_load_from_file filename_prefix fs1
  = Tokenizer_load_from_file filename_prefix fs2.
Proof.
  intros H. unfold Tokenizer_load_from_file. cbv zeta.
  rewrite (read_lines_from_file_ext _ _ fs1 fs2 H). reflexivity.
Qed.

Lemma TokenTextEncoder_filename_cons (filename_prefix : text) :
  exists c f, TokenTextEncoder_filename filename_prefix = c :: f.
Proof.
  unfold TokenTextEncoder_filename. destruct filename_prefix as [|c p].
  - eexists _, _. reflexivity.
  - exists c, (p ++ txt ".tokens"). reflexivity.
Qed.

Lemma Tokenizer_filename_ne (filename : text) :
  filename <> Tokenizer_filename filename.
Proof.
  unfold Tokenizer_filename. intros H. apply (f_equal length) in H.
  rewrite length_app in H. cbn in H. lia.
Qed.

(** A tokenizer constructed without reserved tokens is the one its
    flag and the listing of its (empty) set construct. *)
Lemma Tokenizer_init_again_no_reserved (alphanum_only : bool) (tk : Tokenizer) :
  Tokenizer_init alphanum_only [] = Ok tk ->
  Tokenizer_init (_alphanum_only tk) (set_list (_reserved_tokens tk)) = Ok tk.
Proof.
  intros Htk.
  assert (set_list (_reserved_tokens tk) = []) as ->.
  { injection Htk as <-. cbn [_reserved_tokens fst list_to_set].
    apply Permutation_nil_r. rewrite (set_list_perm ∅), elements_empty.
    reflexivity. }
  assert (_alphanum_only tk = alphanum_only) as ->
    by (injection Htk as <-; reflexivity).
  exact Htk.
Qed.

End SavedWithTokenizer.

(** X24.  A [Tokenizer] constructed without reserved tokens is loaded
    back from the file it was saved to. *)
Theorem X24_tokenizer_save_load_no_reserved `{RT : PyRuntime} `{HOST : PyHost}
    (alphanum_only : bool) (tk : Tokenizer) (filename_prefix : text)
    (fs : gmap text (list Z)) :
  Tokenizer_init alphanum_only [] = Ok tk ->
  plain_line (json_dumps (Tokenizer_kwargs tk)) ->
  json_loads (json_dumps (Tokenizer_kwargs tk)) = Some (Tokenizer_kwargs tk) ->
  (Tokenizer_save_to_file tk filename_prefix fs).2 = IoOk tt
  /\ Tokenizer_load_from_file filename_prefix
       (Tokenizer_save_to_file tk filename_prefix fs).1
     = IoOk tk.
Proof.
  intros Htk Hm Hj.
  destruct (Tokenizer_save_then_load tk filename_prefix fs Hm Hj) as (Hw & _ & Hr).
  split; [exact Hw|]. rewrite Hr.
  rewrite (Tokenizer_init_again_no_reserved alphanum_only tk Htk). reflexivity.
Qed.

(** X25.  A [TokenTextEncoder] given a tokenizer without reserved
    tokens is saved as two files, its own and the tokenizer's, and
    [load_from_file] builds the same encoder from them (under the
    conditions of X22 on the vocabulary, and with [json.loads] undoing
    [json.dumps] on the two metadata objects). *)
Theorem X25_token_encoder_with_tokenizer_save_load
    `{RT : PyRuntime} `{HOST : PyHost}
    (alphanum_only : bool) (tk : Tokenizer) (vocab : list text) (oov : Z)
    (tok : text) (lc : bool) (e : TokenTextEncoder) (filename_prefix : text)
    (fs : gmap text (list Z)) :
  let kwargs :=
    <[txt "tokenizer_file_prefix" :=
        JStr (TokenTextEncoder_filename filename_prefix)]>
      (TokenTextEncoder_kwargs e) in
  Tokenizer_init alphanum_only [] = Ok tk ->
  TokenTextEncoder_init vocab oov tok lc (Some tk) = Ok e ->
  _vocab_list e <> [] ->
  Forall plain_line (_vocab_list e) ->
  map str_strip (_vocab_list e) = _vocab_list e ->
  (lc = true -> map str_lower (_vocab_list e) = _vocab_list e) ->
  plain_line (json_dumps (Tokenizer_kwargs tk)) ->
  json_loads (json_dumps (Tokenizer_kwargs tk)) = Some (Tokenizer_kwargs tk) ->
  plain_line (json_dumps kwargs) ->
  json_loads (json_dumps kwargs) = Some kwargs ->
  (TokenTextEncoder_save_to_file e filename_prefix fs).2 = IoOk tt
  /\ TokenTextEncoder_load_from_file filename_prefix
       (TokenTextEncoder_save_to_file e filename_prefix fs).1
     = IoOk e.
Proof.
  intros kwargs Htk He Hne Hl Hs Hlow Hmt Hjt Hm Hj.
  assert (_user_defined_tokenizer e = Some tk /\ _tokenizer e = tk) as [Hu Ht].
  { revert He. unfold TokenTextEncoder_init. cbn [mbind result_bind].
    intros [= <-]. split; reflexivity. }
  set (filename := TokenTextEncoder_filename filename_prefix) in *.
  destruct (Tokenizer_save_then_load tk filename fs Hmt Hjt) as (Hw1 & Hfs1 & Hr1).
  pose proof (Tokenizer_init_again_no_reserved alphanum_only tk Htk) as Hagain.
  set (fs1 := (Tokenizer_save_to_file tk filename fs).1) in *.
  destruct (write_then_read (txt "TokenTextEncoder") (txt "TokenTextEncoder")
              filename (_vocab_list e) (Some kwargs) fs1
              plain_line_TokenTextEncoder Hm Hl) as [Hw Hr].
  assert (match _vocab_list e with [] => [[]] | _ :: _ => _vocab_list e end
          = _vocab_list e) as Hv
    by (destruct (_vocab_list e); [contradiction | reflexivity]).
  rewrite Hv in Hr. clear Hv.
  cbn [from_option id] in Hr. rewrite Hj in Hr.
  destruct (decide _) as [_|E] in Hr; [|exfalso; apply E; reflexivity].
  unfold TokenTextEncoder_save_to_file. rewrite Hu, Ht. cbv zeta.
  fold filename. fold fs1. rewrite Hw1. fold kwargs.
  split; [exact Hw|].
  set (fs2 := (write_lines_to_file (txt "TokenTextEncoder") filename
                 (_vocab_list e) (Some kwargs) fs1).1) in *.
  unfold TokenTextEncoder_load_from_file. cbv zeta. fold filename.
  rewrite Hr. cbn [mbind io_result_bind fst snd].
  destruct (TokenTextEncoder_kwargs_lookup e) as (H1 & H2 & H3 & H4 & H5 & H6).
  assert (kwargs !! txt "tokenizer_file_prefix" = Some (JStr filename)) as ->
    by apply lookup_insert_eq.
  assert (delete (txt "tokenizer_file_prefix") kwargs = TokenTextEncoder_kwargs e)
    as -> by (subst kwargs; rewrite delete_insert_eq; apply delete_id, H4).
  assert (Tokenizer_load_from_file filename fs2 = IoOk tk) as Hload.
  { rewrite (Tokenizer_load_from_file_ext filename fs2 fs1).
    - subst fs1. rewrite Hr1, Hagain. reflexivity.
    - subst fs2. unfold write_lines_to_file. cbn [fst].
      apply lookup_insert_ne, Tokenizer_filename_ne. }
  destruct (TokenTextEncoder_filename_cons filename_prefix) as (c & f & Ef).
  fold filename in Ef. rewrite Ef. rewrite <- Ef. rewrite Hload.
  cbn [fmap io_result_fmap mbind io_result_bind].
  unfold check_kwargs. destruct (decide _) as [_|E]; [|contradiction].
  cbn [mbind io_result_bind]. rewrite H5. cbn [mbind io_result_bind].
  unfold kw_int, kw_str, kw_bool. rewrite H1, H2, H3.
  cbn [mbind io_result_bind].
  rewrite (TokenTextEncoder_init_again vocab oov tok lc (Some tk) e He Hs Hlow).
  reflexivity.
Qed.

(** ** The theorems at concrete inputs *)

#[local] Existing Instance ascii_runtime.

Lemma C4_duplicate_token_last_index_witness :
  exists e : TokenTextEncoder,
    TokenTextEncoder_init [txt "a"; txt "b"; txt "a"] 1 (txt "UNK") false None
      = Ok e
    /\ _vocab_list e !! 2%nat = Some (txt "a")
    /\ (forall j, (2 < j)%nat -> _vocab_list e !! j <> Some (txt "a"))
    /\ (_token_to_id e !! txt "a" = Some 2
        /\ (forall s,
              tokenize (_tokenizer e) (if _lowercase e then str_lower s else s)
                = Ok [txt "a"] ->
              encode e s = Ok [3])).
Proof.
  assert (forall j, (2 < j)%nat ->
            [txt "a"; txt "b"; txt "a"] !! j <> Some (txt "a")) as Hlast.
  { intros j Hj. destruct j as [|[|[|j]]]; try lia. discriminate. }
  eexists. split; [reflexivity|]. split; [reflexivity|]. split; [exact Hlast|].
  apply (C4_duplicate_token_last_index (RT := ascii_runtime)
           [txt "a"; txt "b"; txt "a"] 1 (txt "UNK") false None _ (txt "a") 2).
  - reflexivity.
  - reflexivity.
  - exact Hlast.
Defined.

Lemma C5_encode_ids_in_range_witness :
  (exists b : ByteTextEncoder,
      ByteTextEncoder_init [txt "<EOS>"] = Ok b
      /\ encode b (txt "a<EOS>") = Ok [99; 1]
      /\ Forall (fun i => 1 <= i < vocab_size b) [99; 1])
  /\ (exists e : TokenTextEncoder,
        TokenTextEncoder_init [txt "hello"; txt "world"] 1 (txt "UNK") false None
          = Ok e
        /\ encode e (txt "hello world foo") = Ok [1; 2; 3]
        /\ Forall (fun i => 1 <= i /\ (0 <= 1 -> i < vocab_size e)) [1; 2; 3]).
Proof.
  split.
  - eexists. split; [reflexivity|]. split; [vm_compute; reflexivity|].
    apply (proj1 (C5_encode_ids_in_range (RT := ascii_runtime))
             [txt "<EOS>"] _ (txt "a<EOS>") [99; 1]).
    + reflexivity.
    + vm_compute. reflexivity.
  - eexists. split; [reflexivity|]. split; [vm_compute; reflexivity|].
    apply (proj2 (C5_encode_ids_in_range (RT := ascii_runtime))
             [txt "hello"; txt "world"] 1 (txt "UNK") false None _
             (txt "hello world foo") [1; 2; 3]).
    + reflexivity.
    + vm_compute. reflexivity.
Defined.

Lemma C8_duplicate_tokens_rejected_witness :
  ~ NoDup [txt "a"; txt "a"]
  /\ exists dups, dups <> []
       /\ Tokenizer_init true [txt "a"; txt "a"] = Err (DuplicateTokens dups)
       /\ ByteTextEncoder_init [txt "a"; txt "a"] = Err (DuplicateTokens dups).
Proof.
  assert (~ NoDup [txt "a"; txt "a"]) as Hd.
  { intros H. apply NoDup_cons in H as [H _]. apply H. left. }
  split; [exact Hd|].
  exact (C8_duplicate_tokens_rejected (RT := ascii_runtime)
           [txt "a"; txt "a"] true Hd).
Defined.

Lemma C9_oov_token_raises_witness :
  exists e : TokenTextEncoder,
    TokenTextEncoder_init [txt "a"] 0 (txt "UNK") false None = Ok e
    /\ 0 <= 0
    /\ tokenize (_tokenizer e) (txt "a b") = Ok [txt "a"; txt "b"]
    /\ txt "b" ∈ [txt "a"; txt "b"]
    /\ (txt "b" ∉ _vocab_list e)
    /\ exists t', encode e (txt "a b") = Err (OutOfVocabulary t')
                  /\ t' ∈ [txt "a"; txt "b"] /\ t' ∉ _vocab_list e.
Proof.
  assert (txt "b" ∈ [txt "a"; txt "b"]) as Hin by (right; left).
  assert (txt "b" ∉ [txt "a"]) as Hout.
  { intros H. apply list_elem_of_singleton in H. discriminate H. }
  eexists. split; [reflexivity|]. split; [lia|].
  split; [vm_compute; reflexivity|]. split; [exact Hin|]. split; [exact Hout|].
  apply (C9_oov_token_raises (RT := ascii_runtime)
           [txt "a"] 0 (txt "UNK") false None _ (txt "a b")
           [txt "a"; txt "b"] (txt "b")).
  - reflexivity.
  - lia.
  - vm_compute. reflexivity.
  - exact Hin.
  - exact Hout.
Defined.

Lemma C10_all_zero_ids_raise_witness :
  [0; 0] <> []
  /\ Forall (fun i => i = 0) [0; 0]
  /\ (pad_decr [0; 0] = Err IndexError
      /\ decode example_byte_encoder [0; 0] = Err IndexError
      /\ decode example_token_encoder [0; 0] = Err IndexError).
Proof.
  assert (Forall (fun i => i = 0) [0; 0]) as Hz by (repeat constructor).
  split; [discriminate|]. split; [exact Hz|].
  apply (C10_all_zero_ids_raise (RT := ascii_runtime) [0; 0]
           example_byte_encoder example_token_encoder).
  - discriminate.
  - exact Hz.
Defined.

Lemma X2_pad_decr_pad_incr_witness :
  [4; -3; 0] <> []
  /\ last [4; -3; 0] <> Some (-1)
  /\ pad_decr (pad_incr [4; -3; 0]) = Ok [4; -3; 0].
Proof.
  split; [discriminate|]. split; [discriminate|].
  apply (X2_pad_decr_pad_incr [4; -3; 0]); discriminate.
Defined.

Lemma X3_trailing_pad_ignored_witness :
  ~ Forall (fun i => i = 0) [2; 0; 1]
  /\ Forall (fun i => i = 0) [0; 0]
  /\ (pad_decr ([2; 0; 1] ++ [0; 0]) = pad_decr [2; 0; 1]
      /\ decode example_byte_encoder ([2; 0; 1] ++ [0; 0])
         = decode example_byte_encoder [2; 0; 1]
      /\ decode example_token_encoder ([2; 0; 1] ++ [0; 0])
         = decode example_token_encoder [2; 0; 1]).
Proof.
  assert (~ Forall (fun i => i = 0) [2; 0; 1]) as Hnz.
  { intros H. apply Forall_inv in H. discriminate H. }
  assert (Forall (fun i => i = 0) [0; 0]) as Hz by (repeat constructor).
  split; [exact Hnz|]. split; [exact Hz|].
  exact (X3_trailing_pad_ignored (RT := ascii_runtime) [2; 0; 1] [0; 0]
           example_byte_encoder example_token_encoder Hnz Hz).
Defined.

Lemma X8_tokenize_join_witness :
  exists tk : Tokenizer,
    is_word 32 = false
    /\ Tokenizer_init true [] = Ok tk
    /\ Forall (fun t => t <> [] /\ Forall (fun c => is_word c = true) t)
         [txt "hello"; txt "world"]
    /\ tokenize tk (join tk [txt "hello"; txt "world"])
       = Ok [txt "hello"; txt "world"].
Proof.
  assert (Forall (fun t => t <> [] /\ Forall (fun c => is_word c = true) t)
            [txt "hello"; txt "world"]) as Htoks.
  { repeat constructor; discriminate. }
  eexists. split; [reflexivity|]. split; [reflexivity|]. split; [exact Htoks|].
  apply (X8_tokenize_join (RT := ascii_runtime) _ [txt "hello"; txt "world"]).
  - reflexivity.
  - reflexivity.
  - exact Htoks.
Defined.

Lemma X10_byte_roundtrip_nonempty_witness :
  exists e : ByteTextEncoder,
    ByteTextEncoder_init [] = Ok e
    /\ txt "Hi" <> []
    /\ encode e (txt "Hi") = Ok [73; 106]
    /\ decode e [73; 106] = Ok (txt "Hi").
Proof.
  eexists. split; [reflexivity|]. split; [discriminate|].
  split; [reflexivity|].
  apply (X10_byte_roundtrip_nonempty (RT := ascii_runtime) _ (txt "Hi") [73; 106]).
  - reflexivity.
  - discriminate.
  - reflexivity.
Defined.


Lemma X12_byte_decode_ids_kept_witness :
  106 <> 0
  /\ Forall (fun i => i = 0) [0]
  /\ decode example_byte_encoder ([73; 0] ++ 106 :: [0]) = Err ByteRangeError.
Proof.
  assert (Forall (fun i => i = 0) [0]) as Hz by (repeat constructor).
  split; [discriminate|]. split; [exact Hz|].
  apply (X12_byte_decode_ids_kept (RT := ascii_runtime) example_byte_encoder
           [73; 0] [0] 106); [discriminate | exact Hz].
Defined.

Lemma X13_token_decode_ids_witness :
  [1; 2; 3] <> []
  /\ Forall (fun i => 1 <= i) [1; 2; 3]
  /\ decode example_token_encoder [1; 2; 3] = Ok (txt "hello world UNK").
Proof.
  assert (Forall (fun i => 1 <= i) [1; 2; 3]) as Hpos by (repeat constructor; lia).
  split; [discriminate|]. split; [exact Hpos|].
  apply (X13_token_decode_ids (RT := ascii_runtime) example_token_encoder
           [1; 2; 3]); [discriminate | exact Hpos].
Defined.

Lemma X14_token_decode_encode_witness :
  exists e : TokenTextEncoder,
    TokenTextEncoder_init [txt "hello"; txt "world"] 1 (txt "UNK") false None
      = Ok e
    /\ tokenize (_tokenizer e) (txt "hello world foo")
       = Ok [txt "hello"; txt "world"; txt "foo"]
    /\ [txt "hello"; txt "world"; txt "foo"] <> []
    /\ encode e (txt "hello world foo") = Ok [1; 2; 3]
    /\ decode e [1; 2; 3]
       = Ok (py_join (txt " ")
               (map (fun t => if decide (t ∈ _vocab_list e) then t
                              else _oov_token e)
                  [txt "hello"; txt "world"; txt "foo"])).
Proof.
  eexists. split; [reflexivity|]. split; [vm_compute; reflexivity|].
  split; [discriminate|]. split; [vm_compute; reflexivity|].
  apply (X14_token_decode_encode (RT := ascii_runtime)
           [txt "hello"; txt "world"] 1 (txt "UNK") false None _
           (txt "hello world foo")).
  - reflexivity.
  - vm_compute. reflexivity.
  - discriminate.
  - vm_compute. reflexivity.
Defined.

Lemma X15_single_oov_bucket_witness :
  exists e : TokenTextEncoder,
    TokenTextEncoder_init [txt "hello"; txt "world"] 1 (txt "UNK") false None
      = Ok e
    /\ tokenize (_tokenizer e) (txt "foo hello bar")
       = Ok [txt "foo"; txt "hello"; txt "bar"]
    /\ encode e (txt "foo hello bar")
       = Ok (map (fun t => match _token_to_id e !! t with
                           | Some i => i + 1
                           | None => Z.of_nat (length (_vocab_list e)) + 1
                           end) [txt "foo"; txt "hello"; txt "bar"]).
Proof.
  eexists. split; [reflexivity|]. split; [vm_compute; reflexivity|].
  apply (X15_single_oov_bucket (RT := ascii_runtime)
           [txt "hello"; txt "world"] (txt "UNK") false None _
           (txt "foo hello bar")).
  - reflexivity.
  - vm_compute. reflexivity.
Defined.

Lemma X16_duplicate_mixed_token_rejected_witness :
  ~ NoDup (List.filter is_mixed_alphanum
             (map str_strip [txt "a-b"; txt "c"; txt " a-b "]))
  /\ exists dups, dups <> []
       /\ TokenTextEncoder_init [txt "a-b"; txt "c"; txt " a-b "] 1 (txt "UNK")
            false None
          = Err (DuplicateTokens dups).
Proof.
  assert (~ NoDup (List.filter is_mixed_alphanum
                     (map str_strip [txt "a-b"; txt "c"; txt " a-b "]))) as Hd.
  { assert (List.filter is_mixed_alphanum
              (map str_strip [txt "a-b"; txt "c"; txt " a-b "])
            = [txt "a-b"; txt "a-b"]) as -> by (vm_compute; reflexivity).
    intros H. apply NoDup_cons in H as [H _]. apply H. left. }
  split; [exact Hd|].
  exact (X16_duplicate_mixed_token_rejected (RT := ascii_runtime)
           [txt "a-b"; txt "c"; txt " a-b "] 1 (txt "UNK") false Hd).
Defined.

Lemma X17_token_decode_inner_pad_witness :
  last (_vocab_list example_token_encoder) = Some (txt "world")
  /\ Forall (fun i => 0 <= i) [1; 0]
  /\ 1 <= 3
  /\ decode example_token_encoder ([1; 0] ++ [3]) = Ok (txt "hello world UNK").
Proof.
  assert (Forall (fun i => 0 <= i) [1; 0]) as Hl by (repeat constructor; lia).
  split; [reflexivity|]. split; [exact Hl|]. split; [lia|].
  apply (X17_token_decode_inner_pad (RT := ascii_runtime) example_token_encoder
           [1; 0] 3 (txt "world")); [reflexivity | exact Hl | lia].
Defined.

#[local] Existing Instance reference_host.

Ltac by_computation := vm_compute; reflexivity.

Ltac solve_plain_lines :=
  repeat (apply List.Forall_cons; [solve_plain_line|]); apply List.Forall_nil.

Lemma X18_read_write_lines_witness :
  plain_line (txt "ByteTextEncoder")
  /\ plain_line (json_dumps (default ∅ None))
  /\ json_loads (json_dumps (default ∅ None)) = Some (default ∅ None)
  /\ Forall plain_line [txt "<EOS>"; txt "<PAD>"]
  /\ ((write_lines_to_file (txt "ByteTextEncoder") (txt "enc.bytes")
         [txt "<EOS>"; txt "<PAD>"] None ∅).2 = IoOk tt
      /\ read_lines_from_file (txt "ByteTextEncoder") (txt "enc.bytes")
           (write_lines_to_file (txt "ByteTextEncoder") (txt "enc.bytes")
              [txt "<EOS>"; txt "<PAD>"] None ∅).1
         = IoOk ([txt "<EOS>"; txt "<PAD>"], ∅)).
Proof.
  assert (plain_line (txt "ByteTextEncoder")) as Hc by solve_plain_line.
  assert (plain_line (json_dumps (default ∅ None))) as Hm by solve_plain_line.
  assert (json_loads (json_dumps (default ∅ None)) = Some (default ∅ None)) as Hj
    by by_computation.
  assert (Forall plain_line [txt "<EOS>"; txt "<PAD>"]) as Hl
    by solve_plain_lines.
  split; [exact Hc|]. split; [exact Hm|]. split; [exact Hj|]. split; [exact Hl|].
  exact (X18_read_write_lines (RT := ascii_runtime) (HOST := reference_host)
           (txt "ByteTextEncoder") (txt "enc.bytes") [txt "<EOS>"; txt "<PAD>"]
           None ∅ Hc Hm Hj Hl).
Defined.

Lemma X19_read_other_class_raises_witness :
  txt "ByteTextEncoder" <> txt "TokenTextEncoder"
  /\ plain_line (txt "ByteTextEncoder")
  /\ plain_line (json_dumps (default ∅ None))
  /\ Forall plain_line [txt "<EOS>"]
  /\ read_lines_from_file (txt "TokenTextEncoder") (txt "enc.bytes")
       (write_lines_to_file (txt "ByteTextEncoder") (txt "enc.bytes")
          [txt "<EOS>"] None ∅).1
     = IoErr (NotCreatedFrom (txt "TokenTextEncoder")).
Proof.
  assert (txt "ByteTextEncoder" <> txt "TokenTextEncoder") as Hne by key_ne.
  assert (plain_line (txt "ByteTextEncoder")) as Hc by solve_plain_line.
  assert (plain_line (json_dumps (default ∅ None))) as Hm by solve_plain_line.
  assert (Forall plain_line [txt "<EOS>"]) as Hl
    by solve_plain_lines.
  split; [exact Hne|]. split; [exact Hc|]. split; [exact Hm|]. split; [exact Hl|].
  exact (X19_read_other_class_raises (RT := ascii_runtime) (HOST := reference_host)
           (txt "ByteTextEncoder") (txt "TokenTextEncoder") (txt "enc.bytes")
           [txt "<EOS>"] None ∅ Hne Hc Hm Hl).
Defined.

Lemma X20_byte_encoder_save_load_witness :
  exists e : ByteTextEncoder,
    ByteTextEncoder_init [txt "<EOS>"] = Ok e
    /\ [txt "<EOS>"] <> []
    /\ Forall plain_line [txt "<EOS>"]
    /\ plain_line (json_dumps ∅)
    /\ is_Some (json_loads (json_dumps ∅))
    /\ ((ByteTextEncoder_save_to_file e (txt "enc") ∅).2 = IoOk tt
        /\ ByteTextEncoder_load_from_file (txt "enc")
             (ByteTextEncoder_save_to_file e (txt "enc") ∅).1
           = IoOk e).
Proof.
  assert (Forall plain_line [txt "<EOS>"]) as Hl
    by solve_plain_lines.
  assert (plain_line (json_dumps ∅)) as Hm by solve_plain_line.
  assert (is_Some (json_loads (json_dumps ∅))) as Hj by (eexists; by_computation).
  eexists. split; [reflexivity|]. split; [discriminate|]. split; [exact Hl|].
  split; [exact Hm|]. split; [exact Hj|].
  apply (X20_byte_encoder_save_load (RT := ascii_runtime) (HOST := reference_host)
           [txt "<EOS>"] _ (txt "enc") ∅);
    [reflexivity | discriminate | exact Hl | exact Hm | exact Hj].
Defined.

Lemma X21_byte_encoder_save_load_no_tokens_witness :
  ByteTextEncoder_init [] = Ok example_byte_encoder
  /\ plain_line (json_dumps ∅)
  /\ is_Some (json_loads (json_dumps ∅))
  /\ (ByteTextEncoder_load_from_file (txt "enc")
        (ByteTextEncoder_save_to_file example_byte_encoder (txt "enc") ∅).1
      = lift (ByteTextEncoder_init [[]])
      /\ ByteTextEncoder_load_from_file (txt "enc")
           (ByteTextEncoder_save_to_file example_byte_encoder (txt "enc") ∅).1
         <> IoOk example_byte_encoder).
Proof.
  assert (plain_line (json_dumps ∅)) as Hm by solve_plain_line.
  assert (is_Some (json_loads (json_dumps ∅))) as Hj by (eexists; by_computation).
  split; [reflexivity|]. split; [exact Hm|]. split; [exact Hj|].
  apply (X21_byte_encoder_save_load_no_tokens (RT := ascii_runtime)
           (HOST := reference_host) example_byte_encoder (txt "enc") ∅);
    [reflexivity | exact Hm | exact Hj].
Defined.

Lemma X22_token_encoder_save_load_witness :
  TokenTextEncoder_init [txt "hello"; txt "world"] 1 (txt "UNK") false None
    = Ok example_token_encoder
  /\ _vocab_list example_token_encoder <> []
  /\ Forall plain_line (_vocab_list example_token_encoder)
  /\ map str_strip (_vocab_list example_token_encoder)
     = _vocab_list example_token_encoder
  /\ plain_line (json_dumps (TokenTextEncoder_kwargs example_token_encoder))
  /\ json_loads (json_dumps (TokenTextEncoder_kwargs example_token_encoder))
     = Some (TokenTextEncoder_kwargs example_token_encoder)
  /\ ((TokenTextEncoder_save_to_file example_token_encoder (txt "enc") ∅).2
      = IoOk tt
      /\ TokenTextEncoder_load_from_file (txt "enc")
           (TokenTextEncoder_save_to_file example_token_encoder (txt "enc") ∅).1
         = IoOk example_token_encoder).
Proof.
  assert (TokenTextEncoder_init [txt "hello"; txt "world"] 1 (txt "UNK") false None
          = Ok example_token_encoder) as He by reflexivity.
  assert (Forall plain_line (_vocab_list example_token_encoder)) as Hl
    by solve_plain_lines.
  assert (map str_strip (_vocab_list example_token_encoder)
          = _vocab_list example_token_encoder) as Hs by by_computation.
  assert (plain_line (json_dumps (TokenTextEncoder_kwargs example_token_encoder)))
    as Hm by solve_plain_line.
  assert (json_loads (json_dumps (TokenTextEncoder_kwargs example_token_encoder))
          = Some (TokenTextEncoder_kwargs example_token_encoder)) as Hj
    by by_computation.
  split; [exact He|]. split; [discriminate|]. split; [exact Hl|].
  split; [exact Hs|]. split; [exact Hm|]. split; [exact Hj|].
  apply (X22_token_encoder_save_load (RT := ascii_runtime) (HOST := reference_host)
           [txt "hello"; txt "world"] 1 (txt "UNK") false example_token_encoder
           (txt "enc") ∅);
    [exact He | discriminate | exact Hl | exact Hs | discriminate
     | exact Hm | exact Hj].
Defined.

Lemma X23_tokenizer_save_load_witness :
  exists tk : Tokenizer,
    Tokenizer_init true [txt "a-b"] = Ok tk
    /\ plain_line (json_dumps (Tokenizer_kwargs tk))
    /\ json_loads (json_dumps (Tokenizer_kwargs tk)) = Some (Tokenizer_kwargs tk)
    /\ Tokenizer_load_from_file (txt "tok")
         (Tokenizer_save_to_file tk (txt "tok") ∅).1
       = lift (Tokenizer_init (_alphanum_only tk) (set_list (_reserved_tokens tk))).
Proof.
  eexists. split; [reflexivity|].
  match goal with
  | |- ?P /\ ?J /\ _ =>
      assert P as Hm by solve_plain_line;
      assert J as Hj by by_computation
  end.
  split; [exact Hm|]. split; [exact Hj|].
  exact (proj1 (X23_tokenizer_save_load (RT := ascii_runtime)
                  (HOST := reference_host) _ (txt "tok") ∅ Hm Hj)).
Defined.

Lemma X24_tokenizer_save_load_no_reserved_witness :
  exists tk : Tokenizer,
    Tokenizer_init false [] = Ok tk
    /\ plain_line (json_dumps (Tokenizer_kwargs tk))
    /\ json_loads (json_dumps (Tokenizer_kwargs tk)) = Some (Tokenizer_kwargs tk)
    /\ ((Tokenizer_save_to_file tk (txt "tok") ∅).2 = IoOk tt
        /\ Tokenizer_load_from_file (txt "tok")
             (Tokenizer_save_to_file tk (txt "tok") ∅).1
           = IoOk tk).
Proof.
  eexists. split; [reflexivity|].
  match goal with
  | |- ?P /\ ?J /\ _ =>
      assert P as Hm by solve_plain_line;
      assert J as Hj by by_computation
  end.
  split; [exact Hm|]. split; [exact Hj|].
  exact (X24_tokenizer_save_load_no_reserved (RT := ascii_runtime)
           (HOST := reference_host) false _ (txt "tok") ∅ eq_refl Hm Hj).
Defined.

Lemma X25_token_encoder_with_tokenizer_save_load_witness :
  exists (tk : Tokenizer) (e : TokenTextEncoder),
    Tokenizer_init false [] = Ok tk
    /\ TokenTextEncoder_init [txt "hello"; txt "world"] 1 (txt "UNK") false
         (Some tk) = Ok e
    /\ Forall plain_line (_vocab_list e)
    /\ map str_strip (_vocab_list e) = _vocab_list e
    /\ ((TokenTextEncoder_save_to_file e (txt "enc") ∅).2 = IoOk tt
        /\ TokenTextEncoder_load_from_file (txt "enc")
             (TokenTextEncoder_save_to_file e (txt "enc") ∅).1
           = IoOk e).
Proof.
  eexists. eexists. split; [reflexivity|]. split; [reflexivity|].
  match goal with
  | |- ?L /\ ?S /\ _ =>
      assert L as Hl by solve_plain_lines;
      assert S as Hs by by_computation
  end.
  split; [exact Hl|]. split; [exact Hs|].
  eapply (X25_token_encoder_with_tokenizer_save_load (RT := ascii_runtime)
           (HOST := reference_host) false _ [txt "hello"; txt "world"] 1
           (txt "UNK") false _ (txt "enc") ∅).
  - reflexivity.
  - reflexivity.
  - discriminate.
  - exact Hl.
  - exact Hs.
  - discriminate.
  - solve_plain_line.
  - by_computation.
  - solve_plain_line.
  - by_computation.
Defined.
